(** * thaifloodhelp: the input page and the edit dialog

    A shallow embedding of the two screens of the flood-report intake
    application that carry logic of their own:

    - [src/pages/Input.tsx]: the staged message ([rawMessage]), the text
      clean-up applied to pasted and OCR text, and [handleProcess] with its
      routing on the number of extracted reports;
    - the edit dialog ([EditReportDialog], [handleSave]): the record sent to
      the [reports] table when an edit is saved.

    JavaScript strings are sequences of UTF-16 code units; they are modelled
    as lists of [N].  JavaScript numbers are IEEE-754 binary64 values; they
    are modelled by Rocq's primitive floats, which are the same format. *)

From Stdlib Require Import Floats.
From stdpp Require Import gmap strings list.

Local Open Scope N_scope.

(** ** JavaScript strings *)

Module JsString.

(** A string is its list of UTF-16 code units. *)
Definition jsstring := list N.

(** A literal written with ASCII characters only. *)
Definition lit (s : string) : jsstring :=
  List.map (fun a => N.of_nat (Ascii.nat_of_ascii a)) (String.list_ascii_of_string s).

(** [s ? a : b] on a string: the empty string is the only falsy one. *)
Definition truthy (s : jsstring) : bool :=
  match s with
  | [] => false
  | _ :: _ => true
  end.

Definition eqb (s t : jsstring) : bool := bool_decide (s = t).

(** The class [[\u200B-\u200D\uFEFF]] of the first [replace]. *)
Definition is_zero_width (c : N) : bool :=
  ((0x200B <=? c) && (c <=? 0x200D)) || (c =? 0xFEFF).

(** ECMAScript's WhiteSpace and LineTerminator code units: the class [\s] of
    regular expressions, and what [String.prototype.trim] strips. *)
Definition is_whitespace (c : N) : bool :=
  ((0x09 <=? c) && (c <=? 0x0D)) || (c =? 0x20) || (c =? 0xA0) || (c =? 0x1680)
  || ((0x2000 <=? c) && (c <=? 0x200A)) || (c =? 0x2028) || (c =? 0x2029)
  || (c =? 0x202F) || (c =? 0x205F) || (c =? 0x3000) || (c =? 0xFEFF).

(** The class [[^\S\r\n]]: white space other than CR and LF. *)
Definition is_inline_space (c : N) : bool :=
  is_whitespace c && negb (c =? 0x0D) && negb (c =? 0x0A).

Definition SPACE : N := 0x20.
Definition LF : N := 0x0A.
Definition COMMA : N := 0x2C.

(** [s.replace(/[\u200B-\u200D\uFEFF]/g, "")] *)
Definition remove_zero_width (s : jsstring) : jsstring :=
  List.filter (fun c => negb (is_zero_width c)) s.

(** [s.replace(/[^\S\r\n]+/g, " ")]: every maximal run of inline white space
    becomes one space.  [in_run] tells that the previous code unit belonged
    to a run whose space has been written already. *)
Fixpoint collapse_from (in_run : bool) (s : jsstring) : jsstring :=
  match s with
  | [] => []
  | c :: r =>
      if is_inline_space c
      then (if in_run then collapse_from true r else SPACE :: collapse_from true r)
      else c :: collapse_from false r
  end.

Definition normalize_spaces (s : jsstring) : jsstring := collapse_from false s.

(** [s.trimStart()], [s.trimEnd()] and [s.trim()]. *)
Fixpoint trim_start (s : jsstring) : jsstring :=
  match s with
  | [] => []
  | c :: r => if is_whitespace c then trim_start r else s
  end.

Definition trim_end (s : jsstring) : jsstring := rev (trim_start (rev s)).

Definition trim (s : jsstring) : jsstring := trim_end (trim_start s).

(** [s.split(sep)] for a separator of one code unit; the result is never
    empty: the empty string splits into one empty piece. *)
Fixpoint split (sep : N) (s : jsstring) : list jsstring :=
  match s with
  | [] => [[]]
  | c :: r =>
      if c =? sep then [] :: split sep r
      else match split sep r with
           | [] => [[c]]
           | piece :: pieces => (c :: piece) :: pieces
           end
  end.

(** [parts.join(sep)] *)
Fixpoint join (sep : jsstring) (parts : list jsstring) : jsstring :=
  match parts with
  | [] => []
  | [p] => p
  | p :: ps => p ++ sep ++ join sep ps
  end.

End JsString.

Import JsString.

(** ** The text clean-up of the input page

    The same chain of three calls is written twice in [Input.tsx]: on the
    OCR text in [processImageFile] and on the clipboard text in [onPaste]. *)

Definition cleanText (text : jsstring) : jsstring :=
  trim (normalize_spaces (remove_zero_width text)).

(** What the clean-up establishes. *)
Definition no_zero_width (s : jsstring) : Prop :=
  Forall (fun c => is_zero_width c = false) s.

(** No inline white space other than single spaces; [after_space] tells that
    the code unit before [s] was such a space. *)
Fixpoint collapsed (after_space : bool) (s : jsstring) : bool :=
  match s with
  | [] => true
  | c :: r =>
      if is_inline_space c
      then negb after_space && (c =? SPACE) && collapsed true r
      else collapsed false r
  end.

Definition no_leading_space (s : jsstring) : Prop :=
  match s with
  | [] => True
  | c :: _ => is_whitespace c = false
  end.

(** ** JavaScript values that reach a request body *)

Inductive jsval :=
| JNull
| JNumber (x : float)
| JString (s : jsstring)
| JStrings (l : list jsstring).

(** [s.startsWith(p)] *)
Fixpoint starts_with (p s : jsstring) : bool :=
  match p, s with
  | [], _ => true
  | _ :: _, [] => false
  | a :: p', b :: s' => (a =? b) && starts_with p' s'
  end.

(** What a [catch] clause receives: an [Error] with its message, or any
    other thrown value. *)
Inductive thrown :=
| ErrorInstance (message : jsstring)
| OtherValue.

(** [err instanceof Error ? err.message : fallback] *)
Definition message_or (fallback : jsstring) (err : thrown) : jsstring :=
  match err with
  | ErrorInstance message => message
  | OtherValue => fallback
  end.

(** ** The input page, [src/pages/Input.tsx] *)

Module InputPage.

(** The literals of the page, as UTF-16 code units. *)

(* "กรุณาเลือกไฟล์รูปภาพเท่านั้น" *)
Definition MSG_IMAGE_ONLY : jsstring :=
  [3585; 3619; 3640; 3603; 3634; 3648; 3621; 3639; 3629; 3585; 3652; 3615; 3621; 3660;
   3619; 3641; 3611; 3616; 3634; 3614; 3648; 3607; 3656; 3634; 3609; 3633; 3657; 3609].

(* "ไฟล์รูปภาพต้องมีขนาดไม่เกิน 10MB" *)
Definition MSG_IMAGE_TOO_LARGE : jsstring :=
  [3652; 3615; 3621; 3660; 3619; 3641; 3611; 3616; 3634; 3614; 3605; 3657; 3629; 3591;
   3617; 3637; 3586; 3609; 3634; 3604; 3652; 3617; 3656; 3648; 3585; 3636; 3609; 32;
   49; 48; 77; 66].

(* "ไม่พบข้อความในรูปภาพ": the OCR service's answer for an image without text *)
Definition OCR_NO_TEXT : jsstring :=
  [3652; 3617; 3656; 3614; 3610; 3586; 3657; 3629; 3588; 3623; 3634; 3617; 3651; 3609;
   3619; 3641; 3611; 3616; 3634; 3614].

(* "ไม่สามารถอ่านข้อความจากรูปภาพได้" *)
Definition MSG_OCR_FAILED : jsstring :=
  [3652; 3617; 3656; 3626; 3634; 3617; 3634; 3619; 3606; 3629; 3656; 3634; 3609; 3586;
   3657; 3629; 3588; 3623; 3634; 3617; 3592; 3634; 3585; 3619; 3641; 3611; 3616; 3634;
   3614; 3652; 3604; 3657].

(* "กรุณาวางข้อความที่ต้องการประมวลผล" *)
Definition MSG_EMPTY_INPUT : jsstring :=
  [3585; 3619; 3640; 3603; 3634; 3623; 3634; 3591; 3586; 3657; 3629; 3588; 3623; 3634;
   3617; 3607; 3637; 3656; 3605; 3657; 3629; 3591; 3585; 3634; 3619; 3611; 3619; 3632;
   3617; 3623; 3621; 3612; 3621].

(* "ไม่พบข้อมูลที่สามารถแยกได้" *)
Definition MSG_NOTHING_EXTRACTED : jsstring :=
  [3652; 3617; 3656; 3614; 3610; 3586; 3657; 3629; 3617; 3641; 3621; 3607; 3637; 3656;
   3626; 3634; 3617; 3634; 3619; 3606; 3649; 3618; 3585; 3652; 3604; 3657].

(* "เกิดข้อผิดพลาดในการประมวลผล" *)
Definition MSG_PROCESSING_ERROR : jsstring :=
  [3648; 3585; 3636; 3604; 3586; 3657; 3629; 3612; 3636; 3604; 3614; 3621; 3634; 3604;
   3651; 3609; 3585; 3634; 3619; 3611; 3619; 3632; 3617; 3623; 3621; 3612; 3621].

(* "กรุณาลองใหม่อีกครั้ง" *)
Definition MSG_TRY_AGAIN : jsstring :=
  [3585; 3619; 3640; 3603; 3634; 3621; 3629; 3591; 3651; 3627; 3617; 3656; 3629; 3637;
   3585; 3588; 3619; 3633; 3657; 3591].

Definition MAX_IMAGE_SIZE : N := 10 * 1024 * 1024.

(** The component's state ([useState]). *)
Record State := mkState {
  rawMessage : jsstring;
  isProcessing : bool;
  isOcrProcessing : bool;
  error : jsstring;
  previewImage : option jsstring;
  isDragging : bool
}.

Definition initial : State :=
  {| rawMessage := []; isProcessing := false; isOcrProcessing := false;
     error := []; previewImage := None; isDragging := false |}.

Definition setRawMessage (v : jsstring) (st : State) : State :=
  {| rawMessage := v; isProcessing := isProcessing st;
     isOcrProcessing := isOcrProcessing st; error := error st;
     previewImage := previewImage st; isDragging := isDragging st |}.

Definition setError (v : jsstring) (st : State) : State :=
  {| rawMessage := rawMessage st; isProcessing := isProcessing st;
     isOcrProcessing := isOcrProcessing st; error := v;
     previewImage := previewImage st; isDragging := isDragging st |}.

Definition setPreviewImage (v : option jsstring) (st : State) : State :=
  {| rawMessage := rawMessage st; isProcessing := isProcessing st;
     isOcrProcessing := isOcrProcessing st; error := error st;
     previewImage := v; isDragging := isDragging st |}.

Definition setIsProcessing (v : bool) (st : State) : State :=
  {| rawMessage := rawMessage st; isProcessing := v;
     isOcrProcessing := isOcrProcessing st; error := error st;
     previewImage := previewImage st; isDragging := isDragging st |}.

Definition setIsOcrProcessing (v : bool) (st : State) : State :=
  {| rawMessage := rawMessage st; isProcessing := isProcessing st;
     isOcrProcessing := v; error := error st;
     previewImage := previewImage st; isDragging := isDragging st |}.

(** An extracted report: its [phone] property, which may be missing, and the
    properties that the object spread copies as they are. *)
Record ReportCandidate := mkCandidate {
  phone : option (list jsstring);
  fields : gmap string jsval
}.

(** Where [navigate] goes, with the router state it carries.
    [formattedReports[0]] is an array read, hence the [option]. *)
Inductive navigation :=
| Select (reports : list ReportCandidate)
| Review (extractedData : option ReportCandidate).

(** What a handler does besides updating the state, in order. *)
Inductive effect :=
| InvokeOcr (image : jsstring)
| InvokeExtract (body_rawMessage : jsstring)
| Navigate (target : navigation)
| ToastInfo
| ToastSuccess
| ToastWarning
| ToastError (description : jsstring)
| ConsoleError.

(** A file handed to the page; [dataURL] is what [FileReader.readAsDataURL]
    yields for it: the data URL passed to [reader.onload], or nothing when
    the read fails and [onload] is never called. *)
Record File := mkFile {
  file_type : jsstring;
  file_size : N;
  dataURL : option jsstring
}.

(** The answer of [supabase.functions.invoke('ocr-image', ...)]. *)
Inductive ocr_response :=
| OcrError (err : thrown)
| OcrData (text : option jsstring).

(** The answer of [supabase.functions.invoke('extract-report', ...)]. *)
Inductive extract_response :=
| ExtractError (functionError : thrown)
| ExtractData (data_error : option jsstring) (reports : option (list ReportCandidate)).

(** One entry of [clipboardData.items]. *)
Record ClipboardItem := mkItem {
  item_type : jsstring;
  getAsFile : option File
}.

Record Clipboard := mkClipboard {
  items : option (list ClipboardItem);
  text_plain : jsstring
}.

(** [prev ? prev + "\n\n" + cleanedText : cleanedText] *)
Definition append_ocr_text (cleanedText prev : jsstring) : jsstring :=
  if truthy prev then prev ++ [LF; LF] ++ cleanedText else cleanedText.

(** [prev ? prev + cleanedText : cleanedText] *)
Definition append_pasted_text (cleanedText prev : jsstring) : jsstring :=
  if truthy prev then prev ++ cleanedText else cleanedText.

(** [extractedText && extractedText !== "ไม่พบข้อความในรูปภาพ"] *)
Definition ocr_text_usable (extractedText : jsstring) : bool :=
  truthy extractedText && negb (JsString.eqb extractedText OCR_NO_TEXT).

(** The body of [reader.onload] after the OCR call has answered: the [try]
    block, its [catch] and its [finally].  [st] is the state when the answer
    arrives, which is what the updater [prev => ...] reads. *)
Definition ocr_answered (resp : ocr_response) (st : State) : State * list effect :=
  let '(st', effects) :=
    match resp with
    | OcrError _ =>
        (setError MSG_OCR_FAILED st, [ConsoleError; ToastError MSG_OCR_FAILED])
    | OcrData text =>
        let extractedText := trim <$> text in
        match extractedText with
        | Some extracted =>
            if ocr_text_usable extracted
            then
              let cleanedText := cleanText extracted in
              (setRawMessage (append_ocr_text cleanedText (rawMessage st)) st,
               [ToastSuccess])
            else (st, [ToastWarning])
        | None => (st, [ToastWarning])
        end
    end in
  (setIsOcrProcessing false st', effects).

(** [processImageFile]: the two checks, then [setError("")],
    [setIsOcrProcessing(true)] and the read of the file.  Everything else
    happens in [reader.onload]; the reader is given no [onerror], so after a
    failed read nothing more is done and the flag stays on. *)
Definition processImageFile (file : File) (resp : ocr_response) (st : State)
  : State * list effect :=
  if negb (starts_with (lit "image/") (file_type file))
  then (setError MSG_IMAGE_ONLY st, [])
  else if MAX_IMAGE_SIZE <? file_size file
  then (setError MSG_IMAGE_TOO_LARGE st, [])
  else
    let st1 := setIsOcrProcessing true (setError [] st) in
    match dataURL file with
    | None => (st1, [])
    | Some base64Image =>
        let st2 := setPreviewImage (Some base64Image) st1 in
        let '(st3, effects) := ocr_answered resp st2 in
        (st3, ToastInfo :: InvokeOcr base64Image :: effects)
    end.

(** [Textarea.onChange] *)
Definition onChange (value : jsstring) (st : State) : State :=
  setError [] (setRawMessage value st).

(** [Textarea.onPaste]: the first clipboard item of an image type ends the
    handler (after OCR when it yields a file); otherwise the plain text of
    the clipboard is cleaned and appended. *)
Definition onPaste (clip : Clipboard) (resp : ocr_response) (st : State)
  : State * list effect :=
  match List.find (fun item => starts_with (lit "image/") (item_type item))
                  (default [] (items clip)) with
  | Some item =>
      match getAsFile item with
      | Some file => processImageFile file resp st
      | None => (st, [])
      end
  | None =>
      let pastedText := text_plain clip in
      let cleanedText := cleanText pastedText in
      (setError [] (setRawMessage (append_pasted_text cleanedText (rawMessage st)) st), [])
  end.

(** The three ways a text reaches the staged message, each with the raw text
    it brings: typing in the text area, pasting text, and OCR of an image. *)
Inductive text_entry :=
| Typed (value : jsstring)
| Pasted (pastedText : jsstring)
| OcrDerived (text : jsstring).

Definition enter (e : text_entry) (st : State) : State :=
  match e with
  | Typed value => onChange value st
  | Pasted pastedText =>
      (onPaste {| items := None; text_plain := pastedText |} (OcrData None) st).1
  | OcrDerived text => (ocr_answered (OcrData (Some text)) st).1
  end.

(** A text that the clean-up leaves as it is. *)
Definition is_normalized (s : jsstring) : bool := JsString.eqb (cleanText s) s.

Section handleProcess.

(** [formatPhoneNumber] of [@/lib/utils], a module that is not part of the
    sources at hand. *)
Variable formatPhoneNumber : jsstring -> jsstring.

(** [{ ...report, phone: report.phone?.map(p => formatPhoneNumber(p)) || [] }] *)
Definition format_report (report : ReportCandidate) : ReportCandidate :=
  {| phone := Some (default [] (List.map formatPhoneNumber <$> phone report));
     fields := fields report |}.

(** From the answer to the navigation, or to the value thrown. *)
Definition route (resp : extract_response) : navigation + thrown :=
  match resp with
  | ExtractError functionError => inr functionError
  | ExtractData data_error reports =>
      if truthy (default [] data_error)
      then inr (ErrorInstance (default [] data_error))
      else
        let formattedReports := List.map format_report <$> reports in
        match formattedReports with
        | Some formatted =>
            if (1 <? length formatted)%nat then inl (Select formatted)
            else if (length formatted =? 1)%nat then inl (Review (formatted !! 0%nat))
            else inr (ErrorInstance MSG_NOTHING_EXTRACTED)
        | None => inr (ErrorInstance MSG_NOTHING_EXTRACTED)
        end
  end.

Definition handleProcess (resp : extract_response) (st : State)
  : State * list effect :=
  if negb (truthy (trim (rawMessage st)))
  then (setError MSG_EMPTY_INPUT st, [])
  else
    let st1 := setError [] (setIsProcessing true st) in
    let request := InvokeExtract (trim (rawMessage st)) in
    match route resp with
    | inl target =>
        (setIsProcessing false st1, [request; Navigate target])
    | inr err =>
        (setIsProcessing false (setError (message_or MSG_PROCESSING_ERROR err) st1),
         [request; ConsoleError; ToastError (message_or MSG_TRY_AGAIN err)])
    end.

End handleProcess.

(** *** The other handlers of the page *)

Definition setIsDragging (v : bool) (st : State) : State :=
  {| rawMessage := rawMessage st; isProcessing := isProcessing st;
     isOcrProcessing := isOcrProcessing st; error := error st;
     previewImage := previewImage st; isDragging := v |}.

(** [handleImageUpload]: [e.target.files?.[0]], and nothing without a file. *)
Definition handleImageUpload (files : option (list File)) (resp : ocr_response)
    (st : State) : State * list effect :=
  match default [] files !! 0%nat with
  | Some file => processImageFile file resp st
  | None => (st, [])
  end.

(** [handleDragOver], [handleDragLeave] and [handleDrop] of the drop zone. *)
Definition handleDragOver (st : State) : State :=
  if negb (isOcrProcessing st) && negb (isProcessing st)
  then setIsDragging true st
  else st.

Definition handleDragLeave (st : State) : State := setIsDragging false st.

Definition handleDrop (files : option (list File)) (resp : ocr_response)
    (st : State) : State * list effect :=
  let st1 := setIsDragging false st in
  if isOcrProcessing st || isProcessing st then (st1, [])
  else
    match default [] files !! 0%nat with
    | Some file => processImageFile file resp st1
    | None => (st1, [])
    end.

Definition clearPreviewImage (st : State) : State := setPreviewImage None st.

(** The [disabled] property of the button that runs [handleProcess]:
    [isProcessing || isOcrProcessing || !rawMessage.trim()], and the one of
    the text area and of the file input: [isProcessing || isOcrProcessing]. *)
Definition process_disabled (st : State) : bool :=
  isProcessing st || isOcrProcessing st || negb (truthy (trim (rawMessage st))).

Definition input_disabled (st : State) : bool :=
  isProcessing st || isOcrProcessing st.

(** No call is under way. *)
Definition idle (st : State) : bool :=
  negb (isProcessing st) && negb (isOcrProcessing st).

End InputPage.

(** ** JavaScript numbers *)

Module JsNumber.

(** [x ? a : b] and [x || d] on a number: [0], [-0] and [NaN] are falsy. *)
Definition truthy (x : float) : bool :=
  negb (PrimFloat.is_nan x || PrimFloat.is_zero x).

(** The number is one of 0, 1, 2, ...: finite, not negative, and without a
    fractional part (mantissa [m] and exponent [e] stand for [m * 2^e]). *)
Definition is_nonneg_integer (x : float) : bool :=
  match Prim2SF x with
  | S754_zero _ => true
  | S754_finite false m e => ((0 <=? e) || (Z.pos m mod 2 ^ (- e) =? 0))%Z
  | _ => false
  end.

End JsNumber.

(** ** The edit dialog, [EditReportDialog]

    TypeScript's types are erased when the dialog runs, and the row it is
    given comes from the table as it is: a column may hold [null] where the
    interface says [string] or [number], which is what the guards of the code
    ([x || d], [x?.f]) allow for.  [None] stands for [null] and [undefined]. *)

Module EditReportDialog.

(* "ไม่ระบุชื่อ": the name stored for a report without one *)
Definition UNSPECIFIED_NAME : jsstring :=
  [3652; 3617; 3656; 3619; 3632; 3610; 3640; 3594; 3639; 3656; 3629].

Definition DASH : jsstring := lit "-".

Record Report := mkReport {
  id : jsstring;
  name : option jsstring;
  lastname : option jsstring;
  reporter_name : option jsstring;
  address : option jsstring;
  phone : option (list jsstring);
  number_of_adults : option float;
  number_of_children : option float;
  number_of_infants : option float;
  number_of_seniors : option float;
  number_of_patients : option float;
  health_condition : option jsstring;
  help_needed : option jsstring;
  help_categories : option (list jsstring);
  additional_info : option jsstring;
  urgency_level : option float;
  status : option jsstring;
  created_at : jsstring;
  updated_at : jsstring;
  raw_message : option jsstring;
  location_lat : option float;
  location_long : option float;
  map_link : option jsstring
}.

(** The dialog's state; [report] is the property the dialog was opened with. *)
Record State := mkState {
  formData : Report;
  phoneInput : jsstring;
  isSaving : bool
}.

(** [useState(report.phone?.join(', ') || '')] *)
Definition initial_phoneInput (report : Report) : jsstring :=
  default [] (join (lit ", ") <$> phone report).

Definition initial (report : Report) : State :=
  {| formData := report; phoneInput := initial_phoneInput report; isSaving := false |}.

(** A property of the object literal whose value is a string or [null]. *)
Definition text_value (v : option jsstring) : jsval :=
  match v with
  | Some s => JString s
  | None => JNull
  end.

Definition number_value (v : option float) : jsval :=
  match v with
  | Some x => JNumber x
  | None => JNull
  end.

(** [formData.name && formData.name !== '-' ? formData.name : 'ไม่ระบุชื่อ'] *)
Definition save_name (v : option jsstring) : jsstring :=
  match v with
  | Some s => if JsString.truthy s && negb (JsString.eqb s DASH) then s else UNSPECIFIED_NAME
  | None => UNSPECIFIED_NAME
  end.

(** [formData.number_of_adults || 0], and the same for the other counters. *)
Definition save_counter (v : option float) : float :=
  match v with
  | Some x => if JsNumber.truthy x then x else 0%float
  | None => 0%float
  end.

(** [formData.map_link || null] *)
Definition save_map_link (v : option jsstring) : jsval :=
  match v with
  | Some s => if JsString.truthy s then JString s else JNull
  | None => JNull
  end.

(** The five counters of a report, and the keys they are saved under. *)
Definition counters (r : Report) : list (option float) :=
  [number_of_adults r; number_of_children r; number_of_infants r;
   number_of_seniors r; number_of_patients r].

Definition counter_keys : list string :=
  ["number_of_adults"; "number_of_children"; "number_of_infants";
   "number_of_seniors"; "number_of_patients"]%string.

(** What the dialog does besides updating its state and the table. *)
Inductive effect :=
| ToastSuccess
| ToastError (description : jsstring)
| ConsoleError
| OnSuccess
| OnOpenChange (open : bool).

(** The answer of [supabase.from('reports').update(...).eq('id', ...)]. *)
Inductive update_response :=
| UpdateOk
| UpdateError (err : thrown).

(** A row of the [reports] table, by column name. *)
Abbreviation row := (gmap string jsval).

Definition has_id (report_id : jsstring) (r : row) : bool :=
  match r !! "id"%string with
  | Some (JString i) => JsString.eqb i report_id
  | _ => false
  end.

(** The table's side of [update(values).eq('id', report_id)]: in every row
    with that id the columns named in [values] take the given values, and the
    other columns keep theirs. *)
Definition update_rows (values : row) (report_id : jsstring) (table : list row)
  : list row :=
  List.map (fun r => if has_id report_id r then values ∪ r else r) table.

Section handleSave.

(** [formatPhoneNumber] of [@/lib/utils], a module that is not part of the
    sources at hand, and the conversions of the language that the numeric
    fields go through: [parseFloat], [parseInt] and [String] on a number. *)
Variable formatPhoneNumber : jsstring -> jsstring.
Variable parseFloat : jsstring -> float.
Variable parseInt : jsstring -> float.
Variable String_of_number : float -> jsstring.

(** [phoneInput.split(',').map(p => p.trim()).filter(p => p.length > 0)
      .map(p => formatPhoneNumber(p))] *)
Definition save_phones (input : jsstring) : list jsstring :=
  List.map formatPhoneNumber
    (List.filter (fun p => (0 <? length p)%nat)
       (List.map trim (split COMMA input))).

(** [formData.location_lat ? parseFloat(String(formData.location_lat)) : null] *)
Definition save_location (v : option float) : jsval :=
  match v with
  | Some x => if JsNumber.truthy x then JNumber (parseFloat (String_of_number x)) else JNull
  | None => JNull
  end.

(** The [onChange] of the two location inputs:
    [e.target.value ? parseFloat(e.target.value) : null] *)
Definition location_onChange (value : jsstring) : option float :=
  if JsString.truthy value then Some (parseFloat value) else None.

(** The [onChange] of the five counter inputs:
    [parseInt(e.target.value) || 0] *)
Definition counter_onChange (value : jsstring) : option float :=
  let n := parseInt value in
  Some (if JsNumber.truthy n then n else 0%float).

(** The object literal [dataToUpdate]. *)
Definition dataToUpdate (st : State) : row :=
  let formData := formData st in
  let phones := save_phones (phoneInput st) in
  <["name"%string := JString (save_name (name formData))]> $
  <["lastname"%string := text_value (lastname formData)]> $
  <["reporter_name"%string := text_value (reporter_name formData)]> $
  <["address"%string := text_value (address formData)]> $
  <["phone"%string := JStrings phones]> $
  <["location_lat"%string := save_location (location_lat formData)]> $
  <["location_long"%string := save_location (location_long formData)]> $
  <["map_link"%string := save_map_link (map_link formData)]> $
  <["number_of_adults"%string := JNumber (save_counter (number_of_adults formData))]> $
  <["number_of_children"%string := JNumber (save_counter (number_of_children formData))]> $
  <["number_of_infants"%string := JNumber (save_counter (number_of_infants formData))]> $
  <["number_of_seniors"%string := JNumber (save_counter (number_of_seniors formData))]> $
  <["number_of_patients"%string := JNumber (save_counter (number_of_patients formData))]> $
  <["health_condition"%string := text_value (health_condition formData)]> $
  <["help_needed"%string := text_value (help_needed formData)]> $
  <["help_categories"%string := JStrings (default [] (help_categories formData))]> $
  <["additional_info"%string := text_value (additional_info formData)]> $
  <["urgency_level"%string := number_value (urgency_level formData)]> $
  <["status"%string := text_value (status formData)]> ∅.

Definition setIsSaving (v : bool) (st : State) : State :=
  {| formData := formData st; phoneInput := phoneInput st; isSaving := v |}.

(** [handleSave]: the update is sent for the id of the report the dialog was
    opened with; when the service reports an error the table is taken to be
    as it was. *)
Definition handleSave (report : Report) (resp : update_response)
    (st : State) (table : list row) : State * list row * list effect :=
  match resp with
  | UpdateOk =>
      (setIsSaving false st,
       update_rows (dataToUpdate st) (id report) table,
       [ToastSuccess; OnSuccess; OnOpenChange false])
  | UpdateError err =>
      (setIsSaving false st,
       table,
       [ConsoleError; ToastError (message_or InputPage.MSG_TRY_AGAIN err)])
  end.

End handleSave.

(** *** The form of the dialog *)

(** [{ ...formData, help_categories: updated }] *)
Definition set_help_categories (updated : list jsstring) (r : Report) : Report :=
  {| id := id r; name := name r; lastname := lastname r;
     reporter_name := reporter_name r; address := address r; phone := phone r;
     number_of_adults := number_of_adults r;
     number_of_children := number_of_children r;
     number_of_infants := number_of_infants r;
     number_of_seniors := number_of_seniors r;
     number_of_patients := number_of_patients r;
     health_condition := health_condition r; help_needed := help_needed r;
     help_categories := Some updated;
     additional_info := additional_info r; urgency_level := urgency_level r;
     status := status r; created_at := created_at r; updated_at := updated_at r;
     raw_message := raw_message r; location_lat := location_lat r;
     location_long := location_long r; map_link := map_link r |}.

(** [array.includes(x)] on an array of strings. *)
Definition includes (x : jsstring) (l : list jsstring) : bool :=
  existsb (JsString.eqb x) l.

(** The [checked] property of a category's box:
    [formData.help_categories?.includes(category.id) || false] *)
Definition category_checked (category : jsstring) (r : Report) : bool :=
  default false (includes category <$> help_categories r).

(** The [onCheckedChange] of a category's box:
    [checked ? [...current, category.id] : current.filter(c => c !== category.id)]
    with [current = formData.help_categories || []]. *)
Definition toggle_category (category : jsstring) (checked : bool)
    (current : list jsstring) : list jsstring :=
  if checked then current ++ [category]
  else List.filter (fun c => negb (JsString.eqb c category)) current.

Definition onCheckedChange (category : jsstring) (checked : bool) (r : Report) : Report :=
  let current := default [] (help_categories r) in
  set_help_categories (toggle_category category checked current) r.

(** A click on a box asks for the opposite of what the box shows. *)
Definition click_category (category : jsstring) (r : Report) : Report :=
  onCheckedChange category (negb (category_checked category r)) r.

End EditReportDialog.

(** ** The specification's wording, and concrete inputs *)

Module Samples.

(** An extracted report with one phone number. *)
Definition sample_candidate : InputPage.ReportCandidate :=
  {| InputPage.phone := Some [lit "0812345678"]; InputPage.fields := ∅ |}.

Definition sample_image : InputPage.File :=
  {| InputPage.file_type := lit "image/png";
     InputPage.file_size := 2048;
     InputPage.dataURL := Some (lit "data:image/png;base64,AA==") |}.

(** A stored report, given its name, its count of adults and its latitude;
    the other columns are the same in all the cases below. *)
Definition sample_report (name : option jsstring) (adults : option float)
    (latitude : option float) : EditReportDialog.Report :=
  {| EditReportDialog.id := lit "r1";
     EditReportDialog.name := name;
     EditReportDialog.lastname := Some (lit "Jaidee");
     EditReportDialog.reporter_name := None;
     EditReportDialog.address := Some (lit "Hat Yai");
     EditReportDialog.phone := Some [lit "081-111-1111"; lit "0822222222"];
     EditReportDialog.number_of_adults := adults;
     EditReportDialog.number_of_children := Some 1%float;
     EditReportDialog.number_of_infants := None;
     EditReportDialog.number_of_seniors := Some 0%float;
     EditReportDialog.number_of_patients := Some nan;
     EditReportDialog.health_condition := None;
     EditReportDialog.help_needed := Some (lit "boat");
     EditReportDialog.help_categories := Some [lit "evacuation"];
     EditReportDialog.additional_info := None;
     EditReportDialog.urgency_level := Some 3%float;
     EditReportDialog.status := Some (lit "pending");
     EditReportDialog.created_at := lit "2025-11-25T03:00:00Z";
     EditReportDialog.updated_at := lit "2025-11-25T03:00:00Z";
     EditReportDialog.raw_message := Some (lit "need a boat, 2 adults 1 child");
     EditReportDialog.location_lat := latitude;
     EditReportDialog.location_long := Some 100.5%float;
     EditReportDialog.map_link := None |}.

(** The row of the table that holds a report's immutable columns. *)
Definition sample_row : gmap string jsval :=
  <["id"%string := JString (lit "r1")]> $
  <["name"%string := JString (lit "Somchai")]> $
  <["raw_message"%string := JString (lit "need a boat, 2 adults 1 child")]> ∅.

(** Stand-ins for the functions that are outside the sources, where a
    concrete case needs some: the identity for the phone formatter, and
    conversions that answer [NaN] and the empty string. *)
Definition plain_format (p : jsstring) : jsstring := p.
Definition no_parse (s : jsstring) : float := nan.
Definition no_print (x : float) : jsstring := [].

End Samples.

Module SpecWording.

Import EditReportDialog.

(** The record's counters, as they are read back by key. *)
Definition stored_counters (values : gmap string jsval) : list (option jsval) :=
  (fun key => values !! key) <$> counter_keys.

(** "is a non-negative integer", of a stored value. *)
Definition is_count (v : option jsval) : bool :=
  match v with
  | Some (JNumber x) => JsNumber.is_nonneg_integer x
  | _ => false
  end.

(** A counter of the form is missing, invalid ([NaN]), or a count already. *)
Definition missing_invalid_or_count (c : option float) : bool :=
  match c with
  | None => true
  | Some x => PrimFloat.is_nan x || JsNumber.is_nonneg_integer x
  end.

(** The column that holds the original text of a report, and its value in
    each row of a table. *)
Definition RAW_MESSAGE : string := "raw_message".

Definition raw_messages (table : list (gmap string jsval)) : list (option jsval) :=
  (fun r : gmap string jsval => r !! RAW_MESSAGE) <$> table.

Section phones.

Variable formatPhoneNumber : jsstring -> jsstring.

(** The phone rule in the specification's words: of the entries between
    commas, in order, each is trimmed, dropped when nothing is left of it,
    and formatted otherwise. *)
Fixpoint phone_entries (entries : list jsstring) : list jsstring :=
  match entries with
  | [] => []
  | entry :: rest =>
      match trim entry with
      | [] => phone_entries rest
      | trimmed => formatPhoneNumber trimmed :: phone_entries rest
      end
  end.

Definition phone_list (input : jsstring) : list jsstring :=
  phone_entries (split COMMA input).

End phones.

End SpecWording.

(** ** Notions used to state further properties *)

(** A code unit that is neither white space nor zero-width. *)
Definition is_visible (c : N) : bool :=
  negb (is_whitespace c) && negb (is_zero_width c).

(** The two checks of [processImageFile] passed: an image type, and at most
    ten mebibytes. *)
Definition image_accepted (file : InputPage.File) : bool :=
  starts_with (lit "image/") (InputPage.file_type file)
  && negb (InputPage.MAX_IMAGE_SIZE <? InputPage.file_size file).

(** The file passes the checks and its read fails: [reader.onload] is never
    called. *)
Definition read_lost (file : InputPage.File) : bool :=
  image_accepted file
  && match InputPage.dataURL file with
     | None => true
     | Some _ => false
     end.

(** The file that [onPaste] hands to [processImageFile], if any: the one of
    the first clipboard item of an image type. *)
Definition pasted_image (clip : InputPage.Clipboard) : option InputPage.File :=
  List.find (fun item => starts_with (lit "image/") (InputPage.item_type item))
            (default [] (InputPage.items clip))
  ≫= InputPage.getAsFile.

(** The OCR answer carries a text that is used. *)
Definition ocr_usable (resp : InputPage.ocr_response) : bool :=
  match resp with
  | InputPage.OcrData (Some text) => InputPage.ocr_text_usable (trim text)
  | _ => false
  end.

Definition has_image_item (clip : InputPage.Clipboard) : bool :=
  existsb (fun item => starts_with (lit "image/") (InputPage.item_type item))
          (default [] (InputPage.items clip)).

Definition has_comma (s : jsstring) : bool := existsb (fun c => c =? COMMA) s.

(** A phone number that survives the phone field unchanged but for its
    outer white space: no comma in it, and not blank. *)
Definition plain_phone (p : jsstring) : bool :=
  negb (has_comma p) && JsString.truthy (trim p).

(** The keys of the object literal [dataToUpdate], in the order they are
    written. *)
Definition sent_columns : list string :=
  ["name"; "lastname"; "reporter_name"; "address"; "phone"; "location_lat";
   "location_long"; "map_link"; "number_of_adults"; "number_of_children";
   "number_of_infants"; "number_of_seniors"; "number_of_patients";
   "health_condition"; "help_needed"; "help_categories"; "additional_info";
   "urgency_level"; "status"]%string.

(** The columns of a report that the dialog shows but does not send. *)
Definition kept_columns : list string :=
  ["id"; "raw_message"; "created_at"; "updated_at"]%string.

(** * Properties *)

(** ** The text clean-up *)

Section normalizer_facts.

Implicit Types (s t : jsstring) (c : N) (b : bool).

Lemma remove_zero_width_clean s : no_zero_width (remove_zero_width s).
Proof.
  unfold no_zero_width, remove_zero_width.
  induction s as [|c r IH]; simpl; [constructor|].
  destruct (is_zero_width c) eqn:E; simpl; [exact IH|].
  constructor; [exact E | exact IH].
Qed.

Lemma remove_zero_width_id s : no_zero_width s -> remove_zero_width s = s.
Proof.
  unfold no_zero_width, remove_zero_width.
  induction 1 as [|c r Hc _ IH]; simpl; [reflexivity|].
  rewrite Hc; simpl. by rewrite IH.
Qed.

Lemma collapse_from_no_zero_width b s :
  no_zero_width s -> no_zero_width (collapse_from b s).
Proof.
  unfold no_zero_width. intros H. revert b.
  induction H as [|c r Hc _ IH]; intros b; simpl; [constructor|].
  destruct (is_inline_space c); [destruct b|]; try constructor; auto.
Qed.

Lemma collapse_from_collapsed b s : collapsed b (collapse_from b s) = true.
Proof.
  revert b. induction s as [|c r IH]; intros b; simpl; [reflexivity|].
  destruct (is_inline_space c) eqn:E.
  - destruct b; [apply IH|]. simpl. by rewrite IH.
  - simpl. rewrite E. apply IH.
Qed.

Lemma collapsed_fixpoint b s : collapsed b s = true -> collapse_from b s = s.
Proof.
  revert b. induction s as [|c r IH]; intros b; simpl; [reflexivity|].
  destruct (is_inline_space c) eqn:E.
  - destruct b; simpl; [discriminate|].
    intros [Hc Hr]%andb_prop. apply N.eqb_eq in Hc. subst c.
    by rewrite (IH true Hr).
  - intros Hr. by rewrite (IH false Hr).
Qed.

Lemma collapsed_weaken s : collapsed true s = true -> collapsed false s = true.
Proof.
  destruct s as [|c r]; simpl; [reflexivity|].
  destruct (is_inline_space c); [discriminate | auto].
Qed.

Lemma collapsed_suffix b p s : collapsed b (p ++ s) = true -> collapsed false s = true.
Proof.
  revert b. induction p as [|c r IH]; intros b; simpl.
  - destruct b; [apply collapsed_weaken | auto].
  - destruct (is_inline_space c); [|apply IH].
    intros [_ Hr]%andb_prop. by apply (IH true).
Qed.

Lemma collapsed_prefix b s t : collapsed b (s ++ t) = true -> collapsed b s = true.
Proof.
  revert b. induction s as [|c r IH]; intros b; simpl; [reflexivity|].
  destruct (is_inline_space c); [|apply IH].
  intros [Hc Hr]%andb_prop. rewrite Hc. simpl. by apply IH.
Qed.

(** Trimming keeps a contiguous part of the string. *)
Lemma trim_start_suffix s : exists p, s = p ++ trim_start s.
Proof.
  induction s as [|c r [p IH]]; simpl; [by exists []|].
  destruct (is_whitespace c); [|by exists []].
  exists (c :: p). simpl. by rewrite <- IH.
Qed.

Lemma trim_end_prefix s : exists q, s = trim_end s ++ q.
Proof.
  unfold trim_end. destruct (trim_start_suffix (rev s)) as [p Hp].
  exists (rev p). rewrite <- rev_app_distr, <- Hp. by rewrite rev_involutive.
Qed.

Lemma trim_start_no_leading s : no_leading_space (trim_start s).
Proof.
  induction s as [|c r IH]; simpl; [exact I|].
  destruct (is_whitespace c) eqn:E; [exact IH | exact E].
Qed.

Lemma trim_start_id s : no_leading_space s -> trim_start s = s.
Proof. destruct s as [|c r]; simpl; [reflexivity|]. by intros ->. Qed.

Lemma trim_end_no_leading s : no_leading_space s -> no_leading_space (trim_end s).
Proof.
  intros H. destruct (trim_end_prefix s) as [q Hq].
  destruct (trim_end s) as [|c r]; [exact I|].
  rewrite Hq in H. exact H.
Qed.

Lemma trim_end_idem s : trim_end (trim_end s) = trim_end s.
Proof.
  unfold trim_end. rewrite rev_involutive.
  by rewrite (trim_start_id _ (trim_start_no_leading _)).
Qed.

Lemma trim_idem s : trim (trim s) = trim s.
Proof.
  unfold trim.
  rewrite (trim_start_id (trim_end (trim_start s))).
  - apply trim_end_idem.
  - apply trim_end_no_leading, trim_start_no_leading.
Qed.

Lemma trim_no_zero_width s : no_zero_width s -> no_zero_width (trim s).
Proof.
  unfold no_zero_width, trim. intros H.
  destruct (trim_start_suffix s) as [p Hp].
  destruct (trim_end_prefix (trim_start s)) as [q Hq].
  rewrite Hp, Hq in H.
  apply Forall_app in H as [_ H]. by apply Forall_app in H as [H _].
Qed.

Lemma trim_collapsed s : collapsed false s = true -> collapsed false (trim s) = true.
Proof.
  unfold trim. intros H.
  destruct (trim_start_suffix s) as [p Hp].
  destruct (trim_end_prefix (trim_start s)) as [q Hq].
  rewrite Hp in H. apply collapsed_suffix in H.
  rewrite Hq in H. by apply collapsed_prefix in H.
Qed.

(** The three facts that make a cleaned text a fixed point of each step. *)
Lemma cleanText_no_zero_width s : no_zero_width (cleanText s).
Proof.
  apply trim_no_zero_width, collapse_from_no_zero_width, remove_zero_width_clean.
Qed.

Lemma cleanText_collapsed s : collapsed false (cleanText s) = true.
Proof. apply trim_collapsed, collapse_from_collapsed. Qed.

Lemma cleanText_trimmed s : trim (cleanText s) = cleanText s.
Proof. apply trim_idem. Qed.

(** A text with the three properties is a fixed point of the clean-up. *)
Lemma cleanText_id s :
  no_zero_width s -> collapsed false s = true -> trim s = s -> cleanText s = s.
Proof.
  intros Hzw Hsp Htrim. unfold cleanText, normalize_spaces.
  rewrite (remove_zero_width_id _ Hzw).
  by rewrite (collapsed_fixpoint _ _ Hsp).
Qed.

End normalizer_facts.

(** C5: the text normalizer (zero-width code units removed, runs of white
  space other than line breaks collapsed to one space, then trimmed) is
  idempotent: cleaning a cleaned text returns it unchanged. *)
Theorem cleanText_idempotent (s : jsstring) :
  cleanText (cleanText s) = cleanText s.
Proof.
  apply cleanText_id.
  - apply cleanText_no_zero_width.
  - apply cleanText_collapsed.
  - apply cleanText_trimmed.
Qed.

Example cleanText_spec_example :
  cleanText [0x61; 0x200B; 0x20; 0x20; 0x62] = lit "a b".
Proof. reflexivity. Qed.

(** *** What the clean-up keeps and what it removes *)

Section normalizer_more.

Implicit Types (s t : jsstring) (c : N) (b : bool).

Lemma inline_space_whitespace c : is_inline_space c = true -> is_whitespace c = true.
Proof. unfold is_inline_space. by intros [[H _]%andb_prop _]%andb_prop. Qed.

Lemma visible_not_inline_space c : is_visible c = true -> is_inline_space c = false.
Proof.
  unfold is_visible. intros [Hws _]%andb_prop.
  destruct (is_inline_space c) eqn:E; [|reflexivity].
  apply inline_space_whitespace in E. rewrite E in Hws. discriminate.
Qed.

Lemma remove_zero_width_length s : (length (remove_zero_width s) <= length s)%nat.
Proof.
  unfold remove_zero_width. induction s as [|c r IH]; simpl; [lia|].
  destruct (is_zero_width c); simpl; lia.
Qed.

Lemma collapse_from_length b s : (length (collapse_from b s) <= length s)%nat.
Proof.
  revert b. induction s as [|c r IH]; intros b; simpl; [lia|].
  pose proof (IH true). pose proof (IH false).
  destruct (is_inline_space c); [destruct b|]; simpl; lia.
Qed.

Lemma trim_length s : (length (trim s) <= length s)%nat.
Proof.
  unfold trim.
  destruct (trim_start_suffix s) as [p Hp].
  destruct (trim_end_prefix (trim_start s)) as [q Hq].
  rewrite Hp at 2. rewrite Hq at 2. rewrite !length_app. lia.
Qed.

Lemma remove_zero_width_visible s :
  List.filter is_visible (remove_zero_width s) = List.filter is_visible s.
Proof.
  unfold remove_zero_width. induction s as [|c r IH]; simpl; [reflexivity|].
  unfold is_visible at 2. destruct (is_zero_width c) eqn:E; simpl.
  - by rewrite andb_false_r.
  - unfold is_visible at 1. rewrite E, IH. reflexivity.
Qed.

Lemma collapse_from_visible b s :
  List.filter is_visible (collapse_from b s) = List.filter is_visible s.
Proof.
  revert b. induction s as [|c r IH]; intros b; simpl; [reflexivity|].
  destruct (is_inline_space c) eqn:E.
  - assert (is_visible c = false) as ->.
    { unfold is_visible. by rewrite (inline_space_whitespace c E). }
    destruct b; simpl; apply IH.
  - simpl. by rewrite IH.
Qed.

Lemma trim_start_visible s :
  List.filter is_visible (trim_start s) = List.filter is_visible s.
Proof.
  induction s as [|c r IH]; simpl; [reflexivity|].
  destruct (is_whitespace c) eqn:E; [|reflexivity].
  unfold is_visible at 2. rewrite E. simpl. exact IH.
Qed.

Lemma filter_visible_rev s :
  List.filter is_visible (rev s) = rev (List.filter is_visible s).
Proof.
  induction s as [|c r IH]; simpl; [reflexivity|].
  rewrite List.filter_app, IH. simpl.
  destruct (is_visible c); simpl; [reflexivity | by rewrite app_nil_r].
Qed.

Lemma trim_visible s : List.filter is_visible (trim s) = List.filter is_visible s.
Proof.
  unfold trim, trim_end.
  by rewrite filter_visible_rev, trim_start_visible, filter_visible_rev,
    rev_involutive, trim_start_visible.
Qed.

Lemma cleanText_visible s :
  List.filter is_visible (cleanText s) = List.filter is_visible s.
Proof.
  unfold cleanText, normalize_spaces.
  by rewrite trim_visible, collapse_from_visible, remove_zero_width_visible.
Qed.

(** A cleaned text that is not empty starts with a visible code unit. *)
Lemma cleanText_head_visible s c r : cleanText s = c :: r -> is_visible c = true.
Proof.
  intros E. unfold is_visible.
  pose proof (cleanText_no_zero_width s) as Hzw.
  assert (no_leading_space (cleanText s)) as Hlead.
  { unfold cleanText, trim. apply trim_end_no_leading, trim_start_no_leading. }
  rewrite E in Hzw, Hlead. simpl in Hlead. rewrite Hlead.
  apply Forall_cons in Hzw as [-> _]. reflexivity.
Qed.

Lemma cleanText_blank s :
  cleanText s = [] <-> Forall (fun c => is_visible c = false) s.
Proof.
  split.
  - intros E. pose proof (cleanText_visible s) as Hv. rewrite E in Hv. simpl in Hv.
    clear E. induction s as [|c r IH]; [constructor|].
    simpl in Hv. destruct (is_visible c) eqn:Ec; [discriminate|].
    constructor; [exact Ec | by apply IH].
  - intros Hblank. destruct (cleanText s) as [|c r] eqn:E; [reflexivity|].
    pose proof (cleanText_visible s) as Hv. rewrite E in Hv. simpl in Hv.
    rewrite (cleanText_head_visible s c r E) in Hv.
    assert (List.filter is_visible s = []) as Hnone.
    { clear -Hblank. induction Hblank as [|c' r' Hc _ IH]; simpl; [reflexivity|].
      by rewrite Hc. }
    rewrite Hnone in Hv. discriminate.
Qed.

Lemma head_rev_last s : head (rev s) = last s.
Proof.
  induction s as [|c r _] using rev_ind; [reflexivity|].
  by rewrite rev_app_distr, last_snoc.
Qed.

End normalizer_more.

(** X1: the clean-up only takes away: the cleaned text is never longer than
    the text it was given. *)
Theorem cleanText_never_longer (s : jsstring) :
  (length (cleanText s) <= length s)%nat.
Proof.
  unfold cleanText, normalize_spaces.
  pose proof (trim_length (collapse_from false (remove_zero_width s))).
  pose proof (collapse_from_length false (remove_zero_width s)).
  pose proof (remove_zero_width_length s). lia.
Qed.

(** X2: the clean-up touches white space and zero-width code units only: the
    visible code units of the cleaned text are those of the given text, in
    the same order. *)
Theorem cleanText_keeps_visible_text (s : jsstring) :
  List.filter is_visible (cleanText s) = List.filter is_visible s.
Proof.
  unfold cleanText, normalize_spaces.
  rewrite trim_visible. rewrite collapse_from_visible.
  apply remove_zero_width_visible.
Qed.

(** X3: the cleaned text is empty exactly when the given text has no visible
    code unit (it is empty, or made of white space and zero-width code units
    only); otherwise the cleaned text starts and ends with a code unit that
    is not white space. *)
Theorem cleanText_empty_iff_blank (s : jsstring) :
  (cleanText s = [] <-> Forall (fun c => is_visible c = false) s)
  /\ (forall c, head (cleanText s) = Some c -> is_whitespace c = false)
  /\ (forall c, last (cleanText s) = Some c -> is_whitespace c = false).
Proof.
  split; [apply cleanText_blank|]. split.
  - intros c Hc. destruct (cleanText s) as [|c' r] eqn:E; [discriminate|].
    simpl in Hc. injection Hc as ->.
    by apply cleanText_head_visible, andb_prop in E as [?%negb_true_iff _].
  - intros c Hc.
    assert (no_leading_space (rev (cleanText s))) as Hlead.
    { unfold cleanText, trim, trim_end. rewrite rev_involutive.
      apply trim_start_no_leading. }
    rewrite <- head_rev_last in Hc.
    destruct (rev (cleanText s)) as [|c' r]; [discriminate|].
    simpl in Hc, Hlead. by injection Hc as ->.
Qed.

(** ** The input page *)

Module InputPageSpec.

Import InputPage Samples.

Lemma cleanText_is_normalized (s : jsstring) : is_normalized (cleanText s) = true.
Proof.
  unfold is_normalized, JsString.eqb. apply bool_decide_eq_true.
  apply cleanText_id;
    [apply cleanText_no_zero_width | apply cleanText_collapsed | apply cleanText_trimmed].
Qed.

Lemma truthy_nonempty (s : jsstring) : truthy s = true <-> s <> [].
Proof. destruct s; simpl; split; congruence. Qed.

Lemma append_ocr_text_prefix (cleanedText prev : jsstring) :
  prev `prefix_of` append_ocr_text cleanedText prev.
Proof.
  unfold append_ocr_text. destruct prev as [|c r]; simpl.
  - apply prefix_nil.
  - by apply prefix_cons, prefix_app_r.
Qed.

(** The staged text after an OCR answer, whatever the answer. *)
Lemma ocr_answered_rawMessage (resp : ocr_response) (st : State) :
  rawMessage (ocr_answered resp st).1 =
    match resp with
    | OcrData (Some text) =>
        if ocr_text_usable (trim text)
        then append_ocr_text (cleanText (trim text)) (rawMessage st)
        else rawMessage st
    | _ => rawMessage st
    end.
Proof.
  destruct resp as [err|[text|]]; simpl; try reflexivity.
  unfold ocr_answered; simpl. by destruct (ocr_text_usable (trim text)).
Qed.

(** The staged text after [processImageFile], whatever the file and answer. *)
Lemma processImageFile_rawMessage (file : File) (resp : ocr_response) (st : State) :
  rawMessage (processImageFile file resp st).1 =
    if negb (starts_with (lit "image/") (file_type file)) then rawMessage st
    else if MAX_IMAGE_SIZE <? file_size file then rawMessage st
    else match dataURL file with
         | None => rawMessage st
         | Some _ => rawMessage (ocr_answered resp st).1
         end.
Proof.
  unfold processImageFile.
  destruct (negb _); [reflexivity|].
  destruct (MAX_IMAGE_SIZE <? file_size file); [reflexivity|].
  destruct (dataURL file) as [base64Image|]; [|reflexivity].
  set (st2 := setPreviewImage _ _).
  destruct (ocr_answered resp st2) as [st3 effects] eqn:E. simpl.
  change st3 with (st3, effects).1. rewrite <- E.
  by rewrite !ocr_answered_rawMessage.
Qed.

(** An image never takes staged text away. *)
Lemma processImageFile_keeps_staged (file : File) (resp : ocr_response) (st : State) :
  rawMessage st `prefix_of` rawMessage (processImageFile file resp st).1.
Proof.
  rewrite processImageFile_rawMessage.
  destruct (negb _); [done|]. destruct (_ <? _); [done|].
  destruct (dataURL file); [|done].
  rewrite ocr_answered_rawMessage.
  destruct resp as [err|[text|]]; try done.
  destruct (ocr_text_usable _); [apply append_ocr_text_prefix | done].
Qed.

(** The staged text after a paste without an image in the clipboard. *)
Lemma onPaste_text (clip : Clipboard) (resp : ocr_response) (st : State) :
  Forall (fun item => starts_with (lit "image/") (item_type item) = false)
         (default [] (items clip)) ->
  onPaste clip resp st =
    (setError [] (setRawMessage
       (append_pasted_text (cleanText (text_plain clip)) (rawMessage st)) st), []).
Proof.
  intros Hno. unfold onPaste.
  destruct (List.find _ _) as [item|] eqn:E; [|reflexivity].
  apply find_some in E as [Hin Himg].
  rewrite Forall_forall in Hno. apply list_elem_of_In, Hno in Hin. congruence.
Qed.

Lemma append_pasted_text_app (cleanedText prev : jsstring) :
  append_pasted_text cleanedText prev = prev ++ cleanedText.
Proof. by destruct prev. Qed.

Section routing.

Variable formatPhoneNumber : jsstring -> jsstring.

(** The three cases of [route] on an answer without an error. *)
Lemma route_by_count (data_error : option jsstring) (reports : list ReportCandidate) :
  truthy (default [] data_error) = false ->
  route formatPhoneNumber (ExtractData data_error (Some reports)) =
    match reports with
    | [] => inr (ErrorInstance MSG_NOTHING_EXTRACTED)
    | [report] => inl (Review (Some (format_report formatPhoneNumber report)))
    | _ => inl (Select (List.map (format_report formatPhoneNumber) reports))
    end.
Proof.
  intros Herr. unfold route. rewrite Herr. simpl.
  destruct reports as [|r1 [|r2 rest]]; reflexivity.
Qed.

(** C1: after the phone numbers have been formatted, the answer of the
    extraction is routed on the number of reports, and the three cases cover
    every answer: no report ends in the error message "nothing could be
    extracted" (shown in the page and in a toast) without any navigation, one
    report goes straight to the review page with that report, and more than
    one goes to the selection page with all of them.  An answer without a
    list of reports is treated as one with no report. *)
Theorem handleProcess_routing (data_error : option jsstring)
    (reports : list ReportCandidate) (st : State) :
  truthy (trim (rawMessage st)) = true ->
  truthy (default [] data_error) = false ->
  let formatted := List.map (format_report formatPhoneNumber) reports in
  let result := handleProcess formatPhoneNumber (ExtractData data_error (Some reports)) st in
  let request := InvokeExtract (trim (rawMessage st)) in
  (length reports = 0%nat \/ length reports = 1%nat \/ (1 < length reports)%nat)
  /\ (length reports = 0%nat ->
        error result.1 = MSG_NOTHING_EXTRACTED
        /\ result.2 = [request; ConsoleError; ToastError MSG_NOTHING_EXTRACTED]
        /\ forall target, Navigate target ∉ result.2)
  /\ (forall report, reports = [report] ->
        result.2 = [request; Navigate (Review (Some (format_report formatPhoneNumber report)))])
  /\ ((1 < length reports)%nat ->
        result.2 = [request; Navigate (Select formatted)])
  /\ (handleProcess formatPhoneNumber (ExtractData data_error None) st).2
     = [request; ConsoleError; ToastError MSG_NOTHING_EXTRACTED].
Proof.
  intros Hraw Herr formatted result request.
  subst result. unfold handleProcess. rewrite Hraw. simpl negb. cbv iota.
  rewrite (route_by_count _ _ Herr).
  split; [destruct reports as [|r1 [|r2 rest]]; simpl; lia|].
  split; [|split; [|split]]; [| | |unfold route; by rewrite Herr].
  - intros Hlen. destruct reports; [|discriminate]. simpl.
    repeat split. intros target Hin.
    repeat (apply elem_of_cons in Hin as [Hin|Hin]; [discriminate|]).
    by apply elem_of_nil in Hin.
  - by intros report ->.
  - intros Hlen. destruct reports as [|r1 [|r2 rest]]; simpl in Hlen; try lia.
    reflexivity.
Qed.

End routing.

(** C4: an OCR text that is used (not empty after trimming, and not the "no
    text found" answer) is cleaned and appended: after staged text [X] the
    new staged text is [X], a blank line, and the cleaned text [Y]; after no
    staged text it is [Y] alone.  The staged text is never replaced: it
    starts the new one.  An OCR text is the answer for an image that passed
    the checks and was read. *)
Theorem ocr_text_appended (file : File) (image text : jsstring) (st : State) :
  starts_with (lit "image/") (file_type file) = true ->
  file_size file <= MAX_IMAGE_SIZE ->
  dataURL file = Some image ->
  ocr_text_usable (trim text) = true ->
  let Y := cleanText (trim text) in
  let staged := rawMessage st in
  let staged' := rawMessage (processImageFile file (OcrData (Some text)) st).1 in
  (staged <> [] -> staged' = staged ++ [LF; LF] ++ Y)
  /\ (staged = [] -> staged' = Y)
  /\ staged `prefix_of` staged'.
Proof.
  intros Htype Hsize Hread Husable Y staged staged'.
  assert (staged' = append_ocr_text Y staged) as ->.
  { subst staged'. rewrite processImageFile_rawMessage, Htype. simpl negb. cbv iota.
    apply N.ltb_ge in Hsize. rewrite Hsize, Hread.
    by rewrite ocr_answered_rawMessage, Husable. }
  split; [|split].
  - intros Hne. unfold append_ocr_text.
    apply truthy_nonempty in Hne. by rewrite Hne.
  - by intros ->.
  - apply append_ocr_text_prefix.
Qed.

(** C10: pasted text (no image in the clipboard) is cleaned and put right
    after the staged text, with nothing between the two; after no staged
    text the result is the cleaned text alone. *)
Theorem pasted_text_appended (clip : Clipboard) (resp : ocr_response) (st : State) :
  Forall (fun item => starts_with (lit "image/") (item_type item) = false)
         (default [] (items clip)) ->
  let Y := cleanText (text_plain clip) in
  let staged' := rawMessage (onPaste clip resp st).1 in
  staged' = rawMessage st ++ Y
  /\ (rawMessage st = [] -> staged' = Y)
  /\ (onPaste clip resp st).2 = [].
Proof.
  intros Hno Y staged'. subst staged'.
  rewrite (onPaste_text _ _ _ Hno). simpl.
  rewrite append_pasted_text_app.
  split; [reflexivity|]. split; [by intros ->|reflexivity].
Qed.

(** What [handleProcess] sends to the extraction service: the staged text
    with its ends trimmed, and nothing when that is empty. *)
Lemma handleProcess_request (formatPhoneNumber : jsstring -> jsstring)
    (resp : extract_response) (st : State) (body : jsstring) :
  InvokeExtract body ∈ (handleProcess formatPhoneNumber resp st).2 <->
  body = trim (rawMessage st) /\ truthy (trim (rawMessage st)) = true.
Proof.
  unfold handleProcess.
  destruct (truthy (trim (rawMessage st))) eqn:E; simpl.
  - destruct (route formatPhoneNumber resp) as [target|err]; simpl; split.
    + intros [Hin|Hin]%elem_of_cons; [by inversion Hin|].
      apply elem_of_cons in Hin as [Hin|Hin]; [discriminate|].
      by apply elem_of_nil in Hin.
    + intros [-> _]. apply list_elem_of_here.
    + intros [Hin|Hin]%elem_of_cons; [by inversion Hin|].
      repeat (apply elem_of_cons in Hin as [Hin|Hin]; [discriminate|]).
      by apply elem_of_nil in Hin.
    + intros [-> _]. apply list_elem_of_here.
  - split; [by intros Hin%elem_of_nil | by intros [_ ?]].
Qed.

(** C9, as the code has it: pasted text and OCR text go through the clean-up
    before they are appended to the staged message, and what they append is
    normalized; typed text becomes the staged message as it is; and the
    extraction service is sent the staged message with only its ends
    trimmed. *)
Theorem staged_text_normalization (t : jsstring) (st : State) :
  (rawMessage (enter (Pasted t) st) = rawMessage st ++ cleanText t
   /\ is_normalized (cleanText t) = true)
  /\ (rawMessage (enter (OcrDerived t) st) =
        (if ocr_text_usable (trim t)
         then append_ocr_text (cleanText (trim t)) (rawMessage st)
         else rawMessage st)
      /\ is_normalized (cleanText (trim t)) = true)
  /\ rawMessage (enter (Typed t) st) = t
  /\ (forall formatPhoneNumber resp body,
        InvokeExtract body ∈ (handleProcess formatPhoneNumber resp st).2 ->
        body = trim (rawMessage st)).
Proof.
  repeat split.
  - unfold enter. rewrite onPaste_text by constructor. simpl.
    apply append_pasted_text_app.
  - apply cleanText_is_normalized.
  - unfold enter. by rewrite ocr_answered_rawMessage.
  - apply cleanText_is_normalized.
  - intros fmt resp body Hin. by apply handleProcess_request in Hin as [-> _].
Qed.

(** C9, as it is stated, fails for typed text: typing "a  b" (two spaces)
    into the empty text area stages "a  b", which the clean-up would turn
    into "a b", and that same text is sent to the extraction service. *)
Lemma typed_text_not_normalized :
  rawMessage (enter (Typed (lit "a  b")) initial) = lit "a  b"
  /\ is_normalized (rawMessage (enter (Typed (lit "a  b")) initial)) = false
  /\ cleanText (lit "a  b") = lit "a b"
  /\ (handleProcess plain_format (ExtractData None None)
        (enter (Typed (lit "a  b")) initial)).2 !! 0%nat
      = Some (InvokeExtract (lit "a  b")).
Proof. repeat split; vm_compute; reflexivity. Qed.

Lemma handleProcess_routing_witness :
  let st := setRawMessage (lit "help") initial in
  truthy (trim (rawMessage st)) = true
  /\ (handleProcess plain_format (ExtractData None (Some [sample_candidate])) st).2 =
       [InvokeExtract (lit "help");
        Navigate (Review (Some (format_report plain_format sample_candidate)))].
Proof.
  intros st. split; [reflexivity|].
  destruct (handleProcess_routing plain_format None [sample_candidate] st eq_refl eq_refl)
    as (_ & _ & Hone & _ & _).
  exact (Hone sample_candidate eq_refl).
Defined.

Lemma ocr_text_appended_witness :
  let st := setRawMessage (lit "X") initial in
  ocr_text_usable (trim (lit " Y ")) = true
  /\ rawMessage (processImageFile sample_image (OcrData (Some (lit " Y "))) st).1
     = lit "X" ++ [LF; LF] ++ lit "Y".
Proof.
  intros st. split; [reflexivity|].
  destruct (ocr_text_appended sample_image (lit "data:image/png;base64,AA==")
              (lit " Y ") st) as (Hnonempty & _ & _).
  - reflexivity.
  - vm_compute. discriminate.
  - reflexivity.
  - reflexivity.
  - apply Hnonempty. discriminate.
Defined.

Lemma pasted_text_appended_witness :
  let clip := {| items := Some [{| item_type := lit "text/plain"; getAsFile := None |}];
                 text_plain := lit " Y  Z " |} in
  let st := setRawMessage (lit "X") initial in
  rawMessage (onPaste clip (OcrData None) st).1 = lit "XY Z".
Proof.
  intros clip st.
  destruct (pasted_text_appended clip (OcrData None) st) as (Happ & _ & _).
  - repeat constructor.
  - exact Happ.
Defined.

End InputPageSpec.

(** ** The edit dialog *)

Module EditReportDialogSpec.

Import EditReportDialog Samples SpecWording.

(** Reads one key of a literal written as a chain of insertions. *)
Ltac lookup_literal :=
  repeat (rewrite lookup_insert_ne by discriminate);
  first [ apply lookup_insert_eq | apply lookup_empty ].

Section saved_record.

Variable formatPhoneNumber : jsstring -> jsstring.
Variable parseFloat : jsstring -> float.
Variable String_of_number : float -> jsstring.

Abbreviation dataToUpdate := (dataToUpdate formatPhoneNumber parseFloat String_of_number).
Abbreviation handleSave := (handleSave formatPhoneNumber parseFloat String_of_number).

Lemma saved_name_value (st : State) :
  dataToUpdate st !! "name"%string = Some (JString (save_name (name (formData st)))).
Proof. unfold EditReportDialog.dataToUpdate. lookup_literal. Qed.

Lemma saved_phone_value (st : State) :
  dataToUpdate st !! "phone"%string
  = Some (JStrings (save_phones formatPhoneNumber (phoneInput st))).
Proof. unfold EditReportDialog.dataToUpdate. lookup_literal. Qed.

Lemma saved_location_values (st : State) :
  dataToUpdate st !! "location_lat"%string
  = Some (save_location parseFloat String_of_number (location_lat (formData st)))
  /\ dataToUpdate st !! "location_long"%string
     = Some (save_location parseFloat String_of_number (location_long (formData st))).
Proof. unfold EditReportDialog.dataToUpdate. split; lookup_literal. Qed.

Lemma saved_counter_values (st : State) :
  stored_counters (dataToUpdate st)
  = (fun c => Some (JNumber (save_counter c))) <$> counters (formData st).
Proof.
  unfold stored_counters, counter_keys, counters, EditReportDialog.dataToUpdate.
  simpl fmap. repeat (f_equal; [lookup_literal|]). reflexivity.
Qed.

Lemma raw_message_not_sent (st : State) :
  dataToUpdate st !! "raw_message"%string = None.
Proof. unfold EditReportDialog.dataToUpdate. lookup_literal. Qed.

End saved_record.

(** No entry is empty once it has passed the filter. *)
Lemma phone_entries_filter (formatPhoneNumber : jsstring -> jsstring)
    (entries : list jsstring) :
  List.map formatPhoneNumber
    (List.filter (fun p => (0 <? length p)%nat) (List.map trim entries))
  = phone_entries formatPhoneNumber entries.
Proof.
  induction entries as [|entry rest IH]; simpl; [reflexivity|].
  destruct (trim entry) as [|c r]; simpl; [exact IH|].
  by rewrite IH.
Qed.

Lemma save_counter_count (c : option float) :
  missing_invalid_or_count c = true ->
  JsNumber.is_nonneg_integer (save_counter c) = true.
Proof.
  destruct c as [x|]; simpl; [|reflexivity].
  unfold JsNumber.truthy.
  destruct (PrimFloat.is_nan x); simpl; [reflexivity|].
  destruct (PrimFloat.is_zero x); simpl; [reflexivity|]. auto.
Qed.

Lemma saved_counters_counts (cs : list (option float)) :
  forallb missing_invalid_or_count cs = true ->
  forallb is_count ((fun c => Some (JNumber (save_counter c))) <$> cs) = true.
Proof.
  induction cs as [|c cs IH]; simpl; [reflexivity|].
  intros [Hc Hcs]%andb_prop.
  apply andb_true_intro. split; [by apply save_counter_count | by apply IH].
Qed.

Lemma save_counter_cases (c : option float) :
  match c with
  | None => save_counter c = 0%float
  | Some y =>
      if PrimFloat.is_nan y then save_counter c = 0%float
      else save_counter c = y \/ (PrimFloat.is_zero y = true /\ save_counter c = 0%float)
  end.
Proof.
  destruct c as [y|]; simpl; [|reflexivity]. unfold JsNumber.truthy.
  destruct (PrimFloat.is_nan y); simpl; [reflexivity|].
  destruct (PrimFloat.is_zero y); simpl; [by right | by left].
Qed.

(** What the save's default does achieve: when each counter of the form is
    missing, invalid ([NaN]) or a non-negative integer, each of the five
    counters of the saved record is a non-negative integer: 0 for a missing
    or invalid counter, and the counter of the form otherwise (0 for a zero
    of either sign). *)
Theorem saved_counters (formatPhoneNumber : jsstring -> jsstring)
    (parseFloat : jsstring -> float) (String_of_number : float -> jsstring)
    (st : State) :
  forallb missing_invalid_or_count (counters (formData st)) = true ->
  let stored :=
    stored_counters (dataToUpdate formatPhoneNumber parseFloat String_of_number st) in
  forallb is_count stored = true
  /\ Forall2
       (fun (c : option float) (v : option jsval) =>
          exists x, v = Some (JNumber x)
            /\ match c with
               | None => x = 0%float
               | Some y =>
                   if PrimFloat.is_nan y then x = 0%float
                   else x = y \/ (PrimFloat.is_zero y = true /\ x = 0%float)
               end)
       (counters (formData st)) stored.
Proof.
  intros Hform stored. subst stored. rewrite saved_counter_values.
  split; [by apply saved_counters_counts|].
  apply Forall2_fmap_r, Forall_Forall2_diag, Forall_forall.
  intros c _. exists (save_counter c). split; [reflexivity|].
  apply save_counter_cases.
Qed.

Lemma saved_counters_witness :
  let st := initial (sample_report (Some (lit "Somchai")) (Some 2%float) None) in
  forallb missing_invalid_or_count (counters (formData st)) = true
  /\ forallb is_count
       (stored_counters (dataToUpdate plain_format no_parse no_print st)) = true.
Proof.
  intros st.
  assert (forallb missing_invalid_or_count (counters (formData st)) = true) as Hform
    by (vm_compute; reflexivity).
  split; [exact Hform|].
  exact (proj1 (saved_counters plain_format no_parse no_print st Hform)).
Defined.

(** A counter typed into its field reaches the saved record as [parseInt]
    reads it, whatever its sign. *)
Lemma typed_counter_saved (parseInt : jsstring -> float) (value : jsstring) :
  JsNumber.truthy (parseInt value) = true ->
  save_counter (counter_onChange parseInt value) = parseInt value.
Proof. intros H. unfold counter_onChange. simpl. by rewrite !H. Qed.

(** C2 at a counter of -3: the five counter fields are declared with
    [min="0"] and read with [parseInt], yet nothing checks the sign: with -3
    adults in the form (what typing "-3" into the field leaves there, see
    [typed_counter_saved]) the saved record holds -3, which is not a
    non-negative integer. *)
Lemma negative_counter_saved :
  let st := initial (sample_report (Some (lit "Somchai")) (Some (-3)%float) None) in
  let values := dataToUpdate plain_format no_parse no_print st in
  values !! "number_of_adults"%string = Some (JNumber (-3)%float)
  /\ is_count (values !! "number_of_adults"%string) = false
  /\ forallb is_count (stored_counters values) = false.
Proof. repeat split; vm_compute; reflexivity. Qed.

(** C3 at a latitude of 0: typing "0" into the field puts the parsed number
    into the form as a present value, yet saving the form stores [null] for
    it, and the same for the longitude and for -0. *)
Theorem zero_location_saved_as_null (formatPhoneNumber : jsstring -> jsstring)
    (parseFloat : jsstring -> float) (String_of_number : float -> jsstring) :
  let st := initial (sample_report (Some (lit "Somchai")) (Some 2%float) (Some 0%float)) in
  location_onChange parseFloat (lit "0") = Some (parseFloat (lit "0"))
  /\ dataToUpdate formatPhoneNumber parseFloat String_of_number st !! "location_lat"%string
     = Some JNull
  /\ save_location parseFloat String_of_number (Some 0%float) = JNull
  /\ save_location parseFloat String_of_number (Some (-0)%float) = JNull
  /\ save_location parseFloat String_of_number (Some 13.5%float)
     = JNumber (parseFloat (String_of_number 13.5%float)).
Proof.
  intros st. split; [reflexivity|]. split; [|repeat split].
  apply (saved_location_values formatPhoneNumber parseFloat String_of_number st).
Qed.

(** A location typed into its field: a text read as zero, and a text that
    is no number (read as [NaN]), are both saved as [null]. *)
Lemma typed_location_saved_as_null (parseFloat : jsstring -> float)
    (String_of_number : float -> jsstring) (value : jsstring) :
  JsNumber.truthy (parseFloat value) = false ->
  save_location parseFloat String_of_number (location_onChange parseFloat value) = JNull.
Proof.
  intros H. unfold location_onChange.
  destruct (JsString.truthy value); simpl; [by rewrite H | reflexivity].
Qed.

(** The parts of C3 that hold: a missing location and a [NaN] (what the
    field's [onChange] leaves for a text that is no number) are saved as
    [null], and no input makes the conversion fail. *)
Lemma absent_location_saved_as_null (parseFloat : jsstring -> float)
    (String_of_number : float -> jsstring) :
  save_location parseFloat String_of_number None = JNull
  /\ save_location parseFloat String_of_number (Some nan) = JNull
  /\ location_onChange parseFloat [] = None.
Proof. repeat split. Qed.

(** C6: the phone list of the saved record is the list the specification
    describes: the input is split on commas, each entry is trimmed, entries
    with nothing left are dropped, and the others are formatted, in the
    order of the input.  Nothing removes duplicates: there are as many phone
    numbers as entries that are not blank. *)
Theorem saved_phones (formatPhoneNumber : jsstring -> jsstring)
    (parseFloat : jsstring -> float) (String_of_number : float -> jsstring)
    (st : State) :
  dataToUpdate formatPhoneNumber parseFloat String_of_number st !! "phone"%string
  = Some (JStrings (phone_list formatPhoneNumber (phoneInput st)))
  /\ length (phone_list formatPhoneNumber (phoneInput st))
     = length (List.filter (fun entry => JsString.truthy (trim entry))
                 (split COMMA (phoneInput st)))
  /\ phone_list formatPhoneNumber (lit "081-111-1111, 0822222222")
     = [formatPhoneNumber (lit "081-111-1111"); formatPhoneNumber (lit "0822222222")]
  /\ phone_list formatPhoneNumber (lit "0811111111, ,0811111111,")
     = [formatPhoneNumber (lit "0811111111"); formatPhoneNumber (lit "0811111111")].
Proof.
  split; [|split; [|split; reflexivity]].
  - rewrite saved_phone_value. unfold save_phones, phone_list.
    by rewrite phone_entries_filter.
  - unfold phone_list. induction (split COMMA (phoneInput st)) as [|entry rest IH];
      simpl; [reflexivity|].
    destruct (trim entry); simpl; [exact IH | by rewrite IH].
Qed.

(** C7: the saved name is the sentinel "unspecified" when the form's name is
    missing, empty or the dash "-", and the form's name itself otherwise; so
    the saved name is the sentinel exactly in those cases and when the form
    already holds the sentinel. *)
Theorem saved_name (formatPhoneNumber : jsstring -> jsstring)
    (parseFloat : jsstring -> float) (String_of_number : float -> jsstring)
    (st : State) :
  let v := name (formData st) in
  exists stored,
    dataToUpdate formatPhoneNumber parseFloat String_of_number st !! "name"%string
    = Some (JString stored)
    /\ (v = None \/ v = Some [] \/ v = Some DASH -> stored = UNSPECIFIED_NAME)
    /\ (forall s, v = Some s -> s <> [] -> s <> DASH -> stored = s)
    /\ (stored = UNSPECIFIED_NAME <->
        v = None \/ v = Some [] \/ v = Some DASH \/ v = Some UNSPECIFIED_NAME).
Proof.
  intros v. exists (save_name v). split; [apply saved_name_value|].
  clearbody v.
  assert (forall s : jsstring, s <> [] -> s <> DASH -> save_name (Some s) = s) as Hkeep.
  { intros s Hs Hd. simpl. destruct s; [done|]. simpl.
    unfold JsString.eqb. by rewrite bool_decide_eq_false_2. }
  split; [|split].
  - intros [->|[->| ->]]; reflexivity.
  - intros s -> Hs Hd. by apply Hkeep.
  - split.
    + destruct v as [s|]; [|by left].
      destruct (decide (s = [])) as [->|Hs]; [by right; left|].
      destruct (decide (s = DASH)) as [->|Hd]; [by right; right; left|].
      rewrite (Hkeep s Hs Hd). intros ->. by right; right; right.
    + intros [->|[->|[->| ->]]]; reflexivity.
Qed.

(** C8: the record sent when an edit is saved has no [raw_message] key, so
    whatever the answer of the service, every row of the table has the same
    [raw_message] after the save as before it. *)
Theorem raw_message_write_once (formatPhoneNumber : jsstring -> jsstring)
    (parseFloat : jsstring -> float) (String_of_number : float -> jsstring)
    (report : Report) (resp : update_response) (st : State)
    (table : list (gmap string jsval)) :
  let values := dataToUpdate formatPhoneNumber parseFloat String_of_number st in
  let table' :=
    (handleSave formatPhoneNumber parseFloat String_of_number report resp st table).1.2 in
  values !! RAW_MESSAGE = None
  /\ (RAW_MESSAGE ∉ dom values)
  /\ raw_messages table' = raw_messages table.
Proof.
  intros values table'.
  assert (values !! RAW_MESSAGE = None) as Hkey by apply raw_message_not_sent.
  split; [exact Hkey|]. split; [by apply not_elem_of_dom|].
  subst table'. destruct resp as [|err]; simpl; [|reflexivity].
  unfold raw_messages, update_rows. rewrite <- list_fmap_compose.
  apply list_fmap_ext. intros _ r _. simpl.
  destruct (has_id (id report) r); [|reflexivity].
  by apply lookup_union_r.
Qed.

(** Saving a changed name over the sample row: the name is replaced, the
    original text stays. *)
Example save_keeps_raw_message :
  let report := sample_report (Some (lit "Somchai")) (Some 2%float) None in
  let edited := sample_report (Some (lit "Somsak")) (Some 2%float) None in
  let st := {| formData := edited; phoneInput := initial_phoneInput report;
               isSaving := false |} in
  let table' :=
    (handleSave plain_format no_parse no_print report UpdateOk st [sample_row]).1.2 in
  raw_messages table' = [Some (JString (lit "need a boat, 2 adults 1 child"))]
  /\ (fun r : gmap string jsval => r !! "name"%string) <$> table'
     = [Some (JString (lit "Somsak"))].
Proof. split; vm_compute; reflexivity. Qed.

End EditReportDialogSpec.

(** ** The input page: the rest of its handlers *)

Module InputPageMore.

Import InputPage Samples.

Lemma ocr_answered_flags (resp : ocr_response) (st : State) :
  isOcrProcessing (ocr_answered resp st).1 = false
  /\ isProcessing (ocr_answered resp st).1 = isProcessing st
  /\ previewImage (ocr_answered resp st).1 = previewImage st.
Proof.
  unfold ocr_answered. destruct resp as [err|[text|]]; simpl; auto.
  destruct (ocr_text_usable (trim text)); simpl; auto.
Qed.

Lemma ocr_answered_effects (resp : ocr_response) (st : State) :
  (ocr_answered resp st).2 =
    match resp with
    | OcrError _ => [ConsoleError; ToastError MSG_OCR_FAILED]
    | OcrData _ => if ocr_usable resp then [ToastSuccess] else [ToastWarning]
    end.
Proof.
  unfold ocr_answered, ocr_usable. destruct resp as [err|[text|]]; simpl; auto.
  destruct (ocr_text_usable (trim text)); reflexivity.
Qed.

(** [processImageFile] in one piece, for a file that passes the checks:
    when its read succeeds, and when it fails. *)
Lemma processImageFile_accepted (file : File) (image : jsstring)
    (resp : ocr_response) (st : State) :
  image_accepted file = true ->
  dataURL file = Some image ->
  processImageFile file resp st =
    let st2 := setPreviewImage (Some image)
                 (setIsOcrProcessing true (setError [] st)) in
    ((ocr_answered resp st2).1,
     ToastInfo :: InvokeOcr image :: (ocr_answered resp st2).2).
Proof.
  unfold image_accepted, processImageFile.
  intros [-> ->%negb_true_iff]%andb_prop ->. simpl.
  by destruct (ocr_answered resp _).
Qed.

Lemma processImageFile_unread (file : File) (resp : ocr_response) (st : State) :
  image_accepted file = true ->
  dataURL file = None ->
  processImageFile file resp st = (setIsOcrProcessing true (setError [] st), []).
Proof.
  unfold image_accepted, processImageFile.
  by intros [-> ->%negb_true_iff]%andb_prop ->.
Qed.

Lemma processImageFile_rejected (file : File) (resp : ocr_response) (st : State) :
  image_accepted file = false ->
  processImageFile file resp st =
    (setError (if starts_with (lit "image/") (file_type file)
               then MSG_IMAGE_TOO_LARGE else MSG_IMAGE_ONLY) st, []).
Proof.
  unfold image_accepted, processImageFile.
  destruct (starts_with _ _); simpl; [|reflexivity].
  by intros ->%negb_false_iff.
Qed.

(** After [processImageFile] on an idle page, a call is under way exactly
    when the read of an accepted file was lost. *)
Lemma processImageFile_idle (file : File) (resp : ocr_response) (st : State) :
  idle st = true ->
  idle (processImageFile file resp st).1 = negb (read_lost file).
Proof.
  intros Hidle. unfold read_lost. destruct (image_accepted file) eqn:E.
  - destruct (dataURL file) as [image|] eqn:Hread.
    + rewrite (processImageFile_accepted _ _ _ _ E Hread). simpl. unfold idle.
      destruct (ocr_answered_flags resp
                  (setPreviewImage (Some image)
                     (setIsOcrProcessing true (setError [] st)))) as (-> & -> & _).
      simpl. by apply andb_prop in Hidle as [-> _].
    + rewrite (processImageFile_unread _ _ _ E Hread). simpl.
      unfold idle. simpl. apply andb_false_r.
  - by rewrite (processImageFile_rejected _ _ _ E).
Qed.

Lemma lost_file_idle (file : option File) (resp : ocr_response) (st : State) :
  idle st = true ->
  idle (match file with
        | Some f => processImageFile f resp st
        | None => (st, [])
        end).1 = negb (default false (read_lost <$> file)).
Proof.
  intros Hidle. destruct file as [f|]; [by apply processImageFile_idle | exact Hidle].
Qed.

Lemma handleProcess_flags (formatPhoneNumber : jsstring -> jsstring)
    (resp : extract_response) (st : State) :
  rawMessage (handleProcess formatPhoneNumber resp st).1 = rawMessage st
  /\ isOcrProcessing (handleProcess formatPhoneNumber resp st).1 = isOcrProcessing st
  /\ (truthy (trim (rawMessage st)) = true ->
      isProcessing (handleProcess formatPhoneNumber resp st).1 = false)
  /\ (truthy (trim (rawMessage st)) = false ->
      isProcessing (handleProcess formatPhoneNumber resp st).1 = isProcessing st).
Proof.
  unfold handleProcess. destruct (truthy (trim (rawMessage st))); simpl.
  - destruct (route formatPhoneNumber resp); simpl; repeat split; done.
  - repeat split; done.
Qed.

(** X4: the OCR service is called exactly for a file that passes the two
    checks (an image type, at most ten mebibytes) and whose read succeeds,
    and then once, with the data URL that was read, right after the
    "reading" toast.  A file that fails a check only sets the error message:
    no call, no preview, and the staged text and the flags stay as they
    were.  An accepted file whose read fails gets no call either: the error
    message is cleared, the OCR flag is switched on, and nothing else
    happens. *)
Theorem ocr_called_iff_image_read (file : File) (resp : ocr_response) (st : State) :
  let result := processImageFile file resp st in
  (forall image, InvokeOcr image ∈ result.2 <->
                 image_accepted file = true /\ dataURL file = Some image)
  /\ (forall image, InvokeOcr image ∈ result.2 ->
        exists rest, result.2 = ToastInfo :: InvokeOcr image :: rest
                     /\ forall other, InvokeOcr other ∉ rest)
  /\ (image_accepted file = false ->
        result.2 = []
        /\ rawMessage result.1 = rawMessage st
        /\ previewImage result.1 = previewImage st
        /\ isOcrProcessing result.1 = isOcrProcessing st
        /\ (error result.1 = MSG_IMAGE_ONLY \/ error result.1 = MSG_IMAGE_TOO_LARGE))
  /\ (image_accepted file = true -> dataURL file = None ->
        result = (setIsOcrProcessing true (setError [] st), [])).
Proof.
  intros result. subst result. destruct (image_accepted file) eqn:E.
  - destruct (dataURL file) as [url|] eqn:Hread.
    + rewrite (processImageFile_accepted _ _ _ _ E Hread). simpl.
      rewrite ocr_answered_effects.
      assert (forall other,
                InvokeOcr other ∉
                  match resp with
                  | OcrError _ => [ConsoleError; ToastError MSG_OCR_FAILED]
                  | OcrData _ => if ocr_usable resp then [ToastSuccess] else [ToastWarning]
                  end) as Hrest.
      { intros other Hin.
        destruct resp as [err|text]; [|destruct (ocr_usable _)];
          repeat (apply elem_of_cons in Hin as [Hin|Hin]; [discriminate|]);
          by apply elem_of_nil in Hin. }
      assert (forall image,
                InvokeOcr image ∈
                  ToastInfo :: InvokeOcr url ::
                    match resp with
                    | OcrError _ => [ConsoleError; ToastError MSG_OCR_FAILED]
                    | OcrData _ =>
                        if ocr_usable resp then [ToastSuccess] else [ToastWarning]
                    end -> image = url) as Hurl.
      { intros image Hin.
        apply elem_of_cons in Hin as [Hin|Hin]; [discriminate|].
        apply elem_of_cons in Hin as [Hin|Hin]; [by injection Hin|].
        by apply Hrest in Hin. }
      split; [|split; [|split; discriminate]].
      * intros image. split.
        -- intros Hin. apply Hurl in Hin. by subst image.
        -- intros [_ [= ->]]. apply list_elem_of_further, list_elem_of_here.
      * intros image Hin. apply Hurl in Hin. subst image.
        eexists. split; [reflexivity | exact Hrest].
    + rewrite (processImageFile_unread _ _ _ E Hread). simpl.
      split; [|split; [|split; [discriminate | done]]].
      * intros image. split; [by intros Hin%elem_of_nil | by intros [_ ?]].
      * by intros image Hin%elem_of_nil.
  - rewrite (processImageFile_rejected _ _ _ E).
    set (message := if starts_with _ _ then _ else _).
    assert (message = MSG_IMAGE_ONLY \/ message = MSG_IMAGE_TOO_LARGE) as Hmessage.
    { subst message. destruct (starts_with _ _); auto. }
    clearbody message. simpl.
    split; [|split; [|split; [|discriminate]]].
    + intros image. split; [by intros Hin%elem_of_nil | by intros [? _]].
    + by intros image Hin%elem_of_nil.
    + intros _. repeat split; try reflexivity. exact Hmessage.
Qed.

(** X5: an OCR answer without a usable text (an error, no text, a text that
    is blank, or the "no text found" answer) leaves the staged text as it
    was, whatever the file, and is never reported as a success. *)
Theorem unusable_ocr_keeps_staged_text (file : File) (resp : ocr_response) (st : State) :
  ocr_usable resp = false ->
  rawMessage (processImageFile file resp st).1 = rawMessage st
  /\ ToastSuccess ∉ (processImageFile file resp st).2.
Proof.
  intros Hno. destruct (image_accepted file) eqn:E;
    [destruct (dataURL file) as [image|] eqn:Hread|].
  - rewrite (processImageFile_accepted _ _ _ _ E Hread). simpl.
    rewrite ocr_answered_effects. split.
    + rewrite InputPageSpec.ocr_answered_rawMessage.
      destruct resp as [err|[text|]]; try reflexivity.
      simpl in Hno. by rewrite Hno.
    + intros Hin.
      do 2 (apply elem_of_cons in Hin as [Hin|Hin]; [discriminate|]).
      destruct resp as [err|text]; [|rewrite Hno in Hin];
        repeat (apply elem_of_cons in Hin as [Hin|Hin]; [discriminate|]);
        by apply elem_of_nil in Hin.
  - rewrite (processImageFile_unread _ _ _ E Hread). simpl.
    split; [reflexivity | by intros Hin%elem_of_nil].
  - rewrite (processImageFile_rejected _ _ _ E). simpl.
    split; [reflexivity | by intros Hin%elem_of_nil].
Qed.

Lemma unusable_ocr_keeps_staged_text_witness :
  let st := setRawMessage (lit "X") initial in
  ocr_usable (OcrData (Some OCR_NO_TEXT)) = false
  /\ rawMessage (processImageFile sample_image (OcrData (Some OCR_NO_TEXT)) st).1
     = lit "X".
Proof.
  intros st. split; [reflexivity|].
  exact (proj1 (unusable_ocr_keeps_staged_text sample_image
                  (OcrData (Some OCR_NO_TEXT)) st eq_refl)).
Defined.

(** X6: started with no call under way, every handler of the page ends
    with no call under way, whatever the services answered, with one
    exception: an image that passes the checks and whose read fails leaves
    the OCR flag on, since the flag is switched off only in [reader.onload].
    So after an image (chosen, dropped or pasted) the page is idle exactly
    when the read was not lost, and after a click on the button or any other
    event it is idle. *)
Theorem handlers_return_to_idle (formatPhoneNumber : jsstring -> jsstring)
    (file : File) (files : option (list File)) (clip : Clipboard)
    (value : jsstring) (ocr : ocr_response) (answer : extract_response)
    (st : State) :
  idle st = true ->
  idle (processImageFile file ocr st).1 = negb (read_lost file)
  /\ idle (handleImageUpload files ocr st).1
     = negb (default false (read_lost <$> default [] files !! 0%nat))
  /\ idle (handleDrop files ocr st).1
     = negb (default false (read_lost <$> default [] files !! 0%nat))
  /\ idle (onPaste clip ocr st).1
     = negb (default false (read_lost <$> pasted_image clip))
  /\ idle (handleProcess formatPhoneNumber answer st).1 = true
  /\ idle (onChange value st) = true
  /\ idle (handleDragOver st) = true
  /\ idle (handleDragLeave st) = true
  /\ idle (clearPreviewImage st) = true.
Proof.
  intros Hidle.
  assert (isProcessing st = false /\ isOcrProcessing st = false) as [Hp Ho].
  { unfold idle in Hidle. apply andb_prop in Hidle as [H1 H2].
    by apply negb_true_iff in H1, H2. }
  repeat split; try exact Hidle.
  - by apply processImageFile_idle.
  - unfold handleImageUpload. by apply lost_file_idle.
  - unfold handleDrop. rewrite Hp, Ho. simpl.
    by apply (lost_file_idle _ _ (setIsDragging false st)).
  - unfold onPaste, pasted_image.
    destruct (List.find _ _) as [item|]; [|exact Hidle]. simpl.
    by apply lost_file_idle.
  - destruct (handleProcess_flags formatPhoneNumber answer st) as (_ & Hocr & Hrun & Hnot).
    unfold idle. rewrite Hocr, Ho.
    destruct (truthy (trim (rawMessage st))); [by rewrite Hrun | by rewrite Hnot, Hp].
  - unfold handleDragOver. by destruct (_ && _).
Qed.

Lemma handlers_return_to_idle_witness :
  let st := setRawMessage (lit "help") initial in
  let unread := {| file_type := lit "image/png"; file_size := 2048; dataURL := None |} in
  idle st = true
  /\ idle (handleProcess plain_format (ExtractError OtherValue) st).1 = true
  /\ idle (processImageFile sample_image (OcrError OtherValue) st).1 = true
  /\ idle (processImageFile unread (OcrData None) st).1 = false.
Proof.
  intros st unread. split; [reflexivity|].
  destruct (handlers_return_to_idle plain_format sample_image None
              {| items := None; text_plain := [] |} [] (OcrError OtherValue)
              (ExtractError OtherValue) st eq_refl)
    as (Himage & _ & _ & _ & Hclick & _).
  destruct (handlers_return_to_idle plain_format unread None
              {| items := None; text_plain := [] |} [] (OcrData None)
              (ExtractError OtherValue) st eq_refl)
    as (Hunread & _).
  split; [exact Hclick|]. split; [exact Himage | exact Hunread].
Defined.

Lemma not_in_error_effects (request : effect) (description : jsstring) (e : effect) :
  e ∈ [request; ConsoleError; ToastError description] ->
  e = request \/ e = ConsoleError \/ e = ToastError description.
Proof.
  intros Hin.
  repeat (apply elem_of_cons in Hin as [Hin|Hin]; [auto|]).
  by apply elem_of_nil in Hin.
Qed.

(** X7: a click on the button with a staged text that is not blank ends in
    exactly one of two ways: the page navigates and shows no error, or it
    shows an error toast and the error message and does not navigate.  In
    both the staged text is kept and the busy flag is off. *)
Theorem handleProcess_navigates_or_reports (formatPhoneNumber : jsstring -> jsstring)
    (resp : extract_response) (st : State) :
  truthy (trim (rawMessage st)) = true ->
  let result := handleProcess formatPhoneNumber resp st in
  let request := InvokeExtract (trim (rawMessage st)) in
  rawMessage result.1 = rawMessage st
  /\ isProcessing result.1 = false
  /\ ((exists target,
         result.2 = [request; Navigate target] /\ error result.1 = [])
      \/ (exists err,
            route formatPhoneNumber resp = inr err
            /\ result.2 = [request; ConsoleError; ToastError (message_or MSG_TRY_AGAIN err)]
            /\ error result.1 = message_or MSG_PROCESSING_ERROR err
            /\ forall target, Navigate target ∉ result.2)).
Proof.
  intros Hraw result request. subst result.
  destruct (handleProcess_flags formatPhoneNumber resp st) as (Hkeep & _ & Hoff & _).
  split; [exact Hkeep|]. split; [by apply Hoff|].
  unfold handleProcess. rewrite Hraw. simpl negb. cbv iota.
  destruct (route formatPhoneNumber resp) as [target|err]; simpl.
  - left. by exists target.
  - right. exists err. repeat split.
    intros target Hin. apply not_in_error_effects in Hin as [Hin|[Hin|Hin]]; discriminate.
Qed.

Lemma handleProcess_navigates_or_reports_witness :
  let st := setRawMessage (lit "help") initial in
  truthy (trim (rawMessage st)) = true
  /\ isProcessing (handleProcess plain_format (ExtractData None (Some [])) st).1 = false.
Proof.
  intros st. split; [reflexivity|].
  destruct (handleProcess_navigates_or_reports plain_format
              (ExtractData None (Some [])) st eq_refl) as (_ & H & _).
  exact H.
Defined.

(** X8: an answer that carries an error text is reported with that text, in
    the page and in the toast, and its reports are not looked at: the
    outcome is the same whatever reports come with it. *)
Theorem extraction_error_reported (formatPhoneNumber : jsstring -> jsstring)
    (message : jsstring) (reports : option (list ReportCandidate)) (st : State) :
  truthy (trim (rawMessage st)) = true ->
  truthy message = true ->
  let result := handleProcess formatPhoneNumber (ExtractData (Some message) reports) st in
  error result.1 = message
  /\ result.2 = [InvokeExtract (trim (rawMessage st)); ConsoleError; ToastError message]
  /\ result = handleProcess formatPhoneNumber (ExtractData (Some message) None) st.
Proof.
  intros Hraw Hmessage result. subst result.
  unfold handleProcess. rewrite Hraw. simpl negb. cbv iota.
  unfold route. simpl default. rewrite Hmessage. simpl. done.
Qed.

Lemma extraction_error_reported_witness :
  let st := setRawMessage (lit "help") initial in
  truthy (trim (rawMessage st)) = true
  /\ error (handleProcess plain_format
              (ExtractData (Some (lit "quota")) (Some [sample_candidate])) st).1
     = lit "quota".
Proof.
  intros st. split; [reflexivity|].
  destruct (extraction_error_reported plain_format (lit "quota")
              (Some [sample_candidate]) st eq_refl eq_refl) as (H & _).
  exact H.
Defined.

(** X9: the extraction service is called at most once per click: for a
    staged text that is not blank, once and first, with a text that has no
    white space at its ends; for a blank one not at all: the handler only
    sets its error message, and the button is disabled in that state. *)
Theorem extraction_called_once (formatPhoneNumber : jsstring -> jsstring)
    (resp : extract_response) (st : State) :
  let result := handleProcess formatPhoneNumber resp st in
  let body := trim (rawMessage st) in
  if truthy body
  then trim body = body
       /\ exists rest, result.2 = InvokeExtract body :: rest
                       /\ forall other, InvokeExtract other ∉ rest
  else result = (setError MSG_EMPTY_INPUT st, [])
       /\ process_disabled st = true.
Proof.
  intros result body. subst result body. unfold handleProcess, process_disabled.
  destruct (truthy (trim (rawMessage st))) eqn:Hraw; simpl.
  - split; [apply trim_idem|].
    destruct (route formatPhoneNumber resp) as [target|err]; simpl;
      eexists; (split; [reflexivity|]); intros other Hin;
      repeat (apply elem_of_cons in Hin as [Hin|Hin]; [discriminate|]);
      by apply elem_of_nil in Hin.
  - split; [reflexivity | apply orb_true_r].
Qed.

Lemma format_report_phone (formatPhoneNumber : jsstring -> jsstring)
    (report : ReportCandidate) :
  is_Some (phone (format_report formatPhoneNumber report)).
Proof. by eexists. Qed.

(** X10: what the page navigates with is well formed: the review page always
    gets a report (never an empty slot), the selection page always gets at
    least two, and every report handed over has a phone list, also when the
    extracted report had none. *)
Theorem navigation_well_formed (formatPhoneNumber : jsstring -> jsstring)
    (resp : extract_response) (target : navigation) :
  route formatPhoneNumber resp = inl target ->
  match target with
  | Review extractedData =>
      exists report, extractedData = Some report /\ is_Some (phone report)
  | Select reports =>
      (2 <= length reports)%nat
      /\ Forall (fun report => is_Some (phone report)) reports
  end.
Proof.
  unfold route. destruct resp as [err|data_error reports]; [discriminate|].
  destruct (truthy (default [] data_error)); [discriminate|].
  destruct reports as [reports|]; [|discriminate]. simpl.
  destruct reports as [|r1 [|r2 rest]]; simpl; [discriminate| |].
  - intros [= <-]. eexists. split; [reflexivity | apply format_report_phone].
  - intros [= <-]. split; [simpl; lia|].
    apply Forall_forall. intros r Hin.
    change (r ∈ List.map (format_report formatPhoneNumber) (r1 :: r2 :: rest)) in Hin.
    apply list_elem_of_In, in_map_iff in Hin as (r0 & <- & _).
    apply format_report_phone.
Qed.

Lemma navigation_well_formed_witness :
  let report := {| phone := None; fields := ∅ |} in
  exists formatted,
    route plain_format (ExtractData None (Some [report])) = inl (Review (Some formatted))
    /\ is_Some (phone formatted).
Proof.
  intros report.
  destruct (navigation_well_formed plain_format (ExtractData None (Some [report]))
              (Review (Some (format_report plain_format report))) eq_refl)
    as (formatted & Heq & Hphone).
  exists formatted. split; [|exact Hphone].
  by injection Heq as <-.
Defined.

(** X11: when the clipboard holds an image, its text is not pasted: the
    outcome of the paste does not depend on the text of the clipboard. *)
Theorem paste_of_image_ignores_text (clip : Clipboard) (other : jsstring)
    (resp : ocr_response) (st : State) :
  has_image_item clip = true ->
  onPaste clip resp st
  = onPaste {| items := items clip; text_plain := other |} resp st.
Proof.
  unfold has_image_item, onPaste. simpl. intros Himage.
  destruct (List.find _ _) as [item|] eqn:E; [reflexivity|].
  apply existsb_exists in Himage as (item & Hin & Htype).
  by rewrite (find_none _ _ E item Hin) in Htype.
Qed.

Lemma paste_of_image_ignores_text_witness :
  let clip := {| items := Some [{| item_type := lit "image/png";
                                   getAsFile := Some sample_image |}];
                 text_plain := lit "caption" |} in
  let st := setRawMessage (lit "X") initial in
  has_image_item clip = true
  /\ rawMessage (onPaste clip (OcrError OtherValue) st).1 = lit "X".
Proof.
  intros clip st. split; [reflexivity|].
  rewrite (paste_of_image_ignores_text clip [] (OcrError OtherValue) st eq_refl).
  reflexivity.
Defined.

(** X12: while a call is under way nothing new can start: a drop is not
    read (it only ends the highlight of the drop zone), dragging over the
    zone does not highlight it, and the button, the text area and the file
    input are disabled. *)
Theorem busy_page_starts_nothing (files : option (list File)) (resp : ocr_response)
    (st : State) :
  idle st = false ->
  handleDrop files resp st = (setIsDragging false st, [])
  /\ handleDragOver st = st
  /\ process_disabled st = true
  /\ input_disabled st = true.
Proof.
  unfold idle, handleDrop, handleDragOver, process_disabled, input_disabled.
  destruct (isProcessing st), (isOcrProcessing st); simpl; try discriminate; done.
Qed.

Lemma busy_page_starts_nothing_witness :
  let st := setIsOcrProcessing true (setRawMessage (lit "X") initial) in
  idle st = false
  /\ handleDrop (Some [sample_image]) (OcrData (Some (lit "Y"))) st
     = (setIsDragging false st, []).
Proof.
  intros st. split; [reflexivity|].
  exact (proj1 (busy_page_starts_nothing (Some [sample_image])
                  (OcrData (Some (lit "Y"))) st eq_refl)).
Defined.

(** X20: a dropped file is handled like a file chosen with the picker, after
    the highlight of the drop zone has been ended. *)
Theorem drop_is_upload (files : option (list File)) (resp : ocr_response) (st : State) :
  idle st = true ->
  handleDrop files resp st = handleImageUpload files resp (setIsDragging false st).
Proof.
  unfold idle, handleDrop, handleImageUpload.
  intros [Hp Ho]%andb_prop. apply negb_true_iff in Hp, Ho.
  by rewrite Hp, Ho.
Qed.

Lemma drop_is_upload_witness :
  let st := setRawMessage (lit "X") initial in
  idle st = true
  /\ rawMessage (handleDrop (Some [sample_image]) (OcrData (Some (lit "Y"))) st).1
     = lit "X" ++ [LF; LF] ++ lit "Y".
Proof.
  intros st. split; [reflexivity|].
  rewrite (drop_is_upload (Some [sample_image]) (OcrData (Some (lit "Y"))) st eq_refl).
  reflexivity.
Defined.

Lemma no_image_items (clip : Clipboard) :
  has_image_item clip = false ->
  Forall (fun item => starts_with (lit "image/") (item_type item) = false)
         (default [] (items clip)).
Proof.
  unfold has_image_item. induction (default [] (items clip)) as [|item rest IH];
    simpl; [constructor|].
  intros [Hitem Hrest]%orb_false_elim. constructor; [exact Hitem | by apply IH].
Qed.

Lemma trim_Forall (P : N -> Prop) (s : jsstring) : Forall P s -> Forall P (trim s).
Proof.
  unfold trim. intros H.
  destruct (trim_start_suffix s) as [p Hp].
  destruct (trim_end_prefix (trim_start s)) as [q Hq].
  rewrite Hp in H. apply Forall_app in H as [_ H].
  rewrite Hq in H. by apply Forall_app in H as [H _].
Qed.

Lemma setRawMessage_same (st : State) : setRawMessage (rawMessage st) st = st.
Proof. by destruct st. Qed.

(** X21: pasting a text without a visible code unit (empty, or white space
    and zero-width code units only), with no image in the clipboard, does
    one thing only: it clears the error message.  The staged text and every
    other part of the state stay as they were, and nothing is called or
    shown. *)
Theorem blank_paste_only_clears_error (clip : Clipboard) (resp : ocr_response)
    (st : State) :
  has_image_item clip = false ->
  Forall (fun c => is_visible c = false) (text_plain clip) ->
  onPaste clip resp st = (setError [] st, [])
  /\ rawMessage (onPaste clip resp st).1 = rawMessage st
  /\ error (onPaste clip resp st).1 = [].
Proof.
  intros Hno Hblank.
  rewrite (InputPageSpec.onPaste_text _ _ _ (no_image_items _ Hno)).
  rewrite InputPageSpec.append_pasted_text_app.
  apply cleanText_blank in Hblank. rewrite Hblank, app_nil_r.
  by rewrite setRawMessage_same.
Qed.

Lemma blank_paste_only_clears_error_witness :
  let clip := {| items := None; text_plain := [SPACE; 0x200B; 0x09; LF] |} in
  let st := setError (lit "failed") (setRawMessage (lit "X") initial) in
  has_image_item clip = false
  /\ rawMessage (onPaste clip (OcrData None) st).1 = lit "X"
  /\ error (onPaste clip (OcrData None) st).1 = [].
Proof.
  intros clip st. split; [reflexivity|].
  refine (proj2 (blank_paste_only_clears_error clip (OcrData None) st eq_refl _)).
  repeat constructor.
Defined.

(** X22: an OCR text that is used but has no visible code unit (a lone
    zero-width space, say, which trimming does not remove) adds nothing but
    the blank line to a staged text, and is still reported as a success.
    An OCR text is the answer for an image that passed the checks and was
    read. *)
Theorem invisible_ocr_text_adds_blank_line (file : File) (image text : jsstring)
    (st : State) :
  image_accepted file = true ->
  dataURL file = Some image ->
  ocr_text_usable (trim text) = true ->
  Forall (fun c => is_visible c = false) text ->
  rawMessage st <> [] ->
  rawMessage (processImageFile file (OcrData (Some text)) st).1
  = rawMessage st ++ [LF; LF]
  /\ ToastSuccess ∈ (processImageFile file (OcrData (Some text)) st).2.
Proof.
  intros Hfile Hread Husable Hblank Hstaged.
  rewrite (processImageFile_accepted _ _ _ _ Hfile Hread). simpl.
  rewrite InputPageSpec.ocr_answered_rawMessage, ocr_answered_effects. simpl.
  rewrite Husable.
  assert (cleanText (trim text) = []) as -> by by apply cleanText_blank, trim_Forall.
  split.
  - unfold append_ocr_text. apply InputPageSpec.truthy_nonempty in Hstaged.
    by rewrite Hstaged.
  - do 2 apply list_elem_of_further. apply list_elem_of_here.
Qed.

Lemma invisible_ocr_text_adds_blank_line_witness :
  let st := setRawMessage (lit "X") initial in
  ocr_text_usable (trim [0x200B]) = true
  /\ rawMessage (processImageFile sample_image (OcrData (Some [0x200B])) st).1
     = lit "X" ++ [LF; LF].
Proof.
  intros st. split; [reflexivity|].
  refine (proj1 (invisible_ocr_text_adds_blank_line sample_image
                   (lit "data:image/png;base64,AA==") [0x200B] st
                   eq_refl eq_refl eq_refl _ _)).
  - repeat constructor.
  - discriminate.
Defined.

End InputPageMore.

(** ** The edit dialog: the phone field, the check boxes and the save *)

Module EditReportDialogMore.

Import EditReportDialog Samples SpecWording.

Lemma split_no_comma (p : jsstring) : has_comma p = false -> split COMMA p = [p].
Proof.
  unfold has_comma. induction p as [|c r IH]; simpl; [reflexivity|].
  intros [Hc Hr]%orb_false_elim. rewrite Hc, (IH Hr). reflexivity.
Qed.

Lemma split_app_comma (p rest : jsstring) :
  has_comma p = false -> split COMMA (p ++ COMMA :: rest) = p :: split COMMA rest.
Proof.
  unfold has_comma. induction p as [|c r IH]; simpl; [reflexivity|].
  intros [Hc Hr]%orb_false_elim. rewrite Hc, (IH Hr). reflexivity.
Qed.

(** The phone field of a freshly opened dialog, split again on commas. *)
Lemma split_join_phones (p : jsstring) (ps : list jsstring) :
  Forall (fun q => has_comma q = false) (p :: ps) ->
  split COMMA (join (lit ", ") (p :: ps)) = p :: List.map (cons SPACE) ps.
Proof.
  revert p. induction ps as [|q ps IH]; intros p Hall.
  - simpl. apply split_no_comma. by apply Forall_cons in Hall as [? _].
  - apply Forall_cons in Hall as [Hp Hall].
    change (join (lit ", ") (p :: q :: ps))
      with (p ++ COMMA :: SPACE :: join (lit ", ") (q :: ps)).
    rewrite (split_app_comma _ _ Hp).
    change (split COMMA (SPACE :: join (lit ", ") (q :: ps)))
      with (match split COMMA (join (lit ", ") (q :: ps)) with
            | [] => [[SPACE]]
            | piece :: pieces => (SPACE :: piece) :: pieces
            end).
    by rewrite (IH q Hall).
Qed.

Lemma trim_after_space (p : jsstring) : trim (SPACE :: p) = trim p.
Proof. reflexivity. Qed.

Lemma plain_phone_parts (p : jsstring) :
  plain_phone p = true -> has_comma p = false /\ trim p <> [].
Proof.
  unfold plain_phone. intros [Hc Ht]%andb_prop.
  split; [by apply negb_true_iff|]. by destruct (trim p).
Qed.

Lemma keep_plain_phones (formatPhoneNumber : jsstring -> jsstring)
    (pieces : list jsstring) :
  Forall (fun p => trim p <> []) pieces ->
  phone_entries formatPhoneNumber pieces
  = List.map formatPhoneNumber (List.map trim pieces).
Proof.
  induction 1 as [|p ps Hp _ IH]; simpl; [reflexivity|].
  destruct (trim p) eqn:E; [done|]. by rewrite IH.
Qed.

(** X13: opening the dialog and saving without touching the phone field
    keeps the phone numbers: when no stored number holds a comma or is
    blank, the saved list is the stored list, each number trimmed and
    formatted, in the same order.  A report without a phone list is saved
    with an empty one. *)
Theorem untouched_phones_round_trip (formatPhoneNumber : jsstring -> jsstring)
    (report : Report) :
  forallb plain_phone (default [] (phone report)) = true ->
  save_phones formatPhoneNumber (initial_phoneInput report)
  = List.map formatPhoneNumber (List.map trim (default [] (phone report))).
Proof.
  intros Hplain. unfold save_phones.
  rewrite EditReportDialogSpec.phone_entries_filter.
  unfold initial_phoneInput. destruct (phone report) as [[|p ps]|]; try reflexivity.
  change (default [] (join (lit ", ") <$> Some (p :: ps)))
    with (join (lit ", ") (p :: ps)).
  change (default [] (Some (p :: ps))) with (p :: ps) in *.
  assert (Forall (fun q => has_comma q = false /\ trim q <> []) (p :: ps)) as Hall.
  { apply Forall_forall. intros q Hq. apply plain_phone_parts.
    rewrite forallb_forall in Hplain. by apply Hplain, list_elem_of_In. }
  rewrite split_join_phones by (eapply Forall_impl; [exact Hall | by intros ? [? _]]).
  rewrite keep_plain_phones.
  - simpl. f_equal. f_equal. rewrite List.map_map. by apply map_ext.
  - apply Forall_cons in Hall as [[_ Hp] Hps]. constructor; [exact Hp|].
    apply Forall_forall. intros q [q' [<- Hq']]%list_elem_of_In%in_map_iff.
    change (trim q' <> []). rewrite Forall_forall in Hps.
    by apply Hps, list_elem_of_In.
Qed.

Lemma untouched_phones_round_trip_witness :
  let report := sample_report None None None in
  forallb plain_phone (default [] (phone report)) = true
  /\ save_phones plain_format (initial_phoneInput report)
     = [lit "081-111-1111"; lit "0822222222"].
Proof.
  intros report. split; [reflexivity|].
  exact (untouched_phones_round_trip plain_format report eq_refl).
Defined.

Lemma split_pieces_no_comma (s : jsstring) :
  Forall (fun piece => has_comma piece = false) (split COMMA s).
Proof.
  induction s as [|c r IH]; simpl; [by repeat constructor|].
  destruct (c =? COMMA) eqn:E; [by constructor|].
  destruct (split COMMA r) as [|piece pieces]; [by repeat constructor; simpl; rewrite E|].
  apply Forall_cons in IH as [Hpiece Hpieces].
  constructor; [|exact Hpieces]. unfold has_comma in *. simpl. by rewrite E, Hpiece.
Qed.

Lemma has_comma_app (s t : jsstring) : has_comma (s ++ t) = has_comma s || has_comma t.
Proof. apply existsb_app. Qed.

Lemma trim_no_comma (s : jsstring) : has_comma s = false -> has_comma (trim s) = false.
Proof.
  intros H. unfold trim.
  destruct (trim_start_suffix s) as [p Hp].
  destruct (trim_end_prefix (trim_start s)) as [q Hq].
  rewrite Hp, has_comma_app in H. apply orb_false_elim in H as [_ H].
  rewrite Hq, has_comma_app in H. by apply orb_false_elim in H as [H _].
Qed.

Lemma trim_start_empty_blank (s : jsstring) :
  trim_start s = [] -> Forall (fun c => is_whitespace c = true) s.
Proof.
  induction s as [|c r IH]; simpl; [constructor|].
  destruct (is_whitespace c) eqn:E; [|discriminate].
  intros Hr. constructor; [exact E | by apply IH].
Qed.

Lemma trim_start_blank_all (s : jsstring) :
  Forall (fun c => is_whitespace c = true) (trim_start s) ->
  Forall (fun c => is_whitespace c = true) s.
Proof.
  induction s as [|c r IH]; simpl; [constructor|].
  destruct (is_whitespace c) eqn:E; [|done].
  intros Hr. constructor; [exact E | by apply IH].
Qed.

(** Only a text of white space is trimmed to nothing. *)
Lemma trim_empty_blank (s : jsstring) :
  trim s = [] -> Forall (fun c => is_whitespace c = true) s.
Proof.
  unfold trim, trim_end. intros H.
  apply (f_equal (@rev N)) in H. rewrite rev_involutive in H. simpl in H.
  apply trim_start_empty_blank in H.
  apply trim_start_blank_all.
  rewrite <- (rev_involutive (trim_start s)). by apply Forall_rev.
Qed.

Lemma blank_no_comma (s : jsstring) :
  Forall (fun c => is_whitespace c = true) s -> has_comma s = false.
Proof.
  unfold has_comma. induction 1 as [|c r Hc _ IH]; simpl; [reflexivity|].
  rewrite IH, orb_false_r. destruct (c =? COMMA) eqn:E; [|reflexivity].
  apply N.eqb_eq in E. subst c. discriminate.
Qed.

(** X14: every phone number of the saved record is the formatter's answer
    for a text taken from between two commas of the field: a text that is
    not empty, has no white space at its ends and holds no comma.  A blank
    field is saved as the empty list. *)
Theorem saved_phones_come_from_entries (formatPhoneNumber : jsstring -> jsstring)
    (input : jsstring) :
  Forall (fun p => exists entry,
            p = formatPhoneNumber entry
            /\ entry <> [] /\ trim entry = entry /\ has_comma entry = false)
         (save_phones formatPhoneNumber input)
  /\ (trim input = [] -> save_phones formatPhoneNumber input = []).
Proof.
  unfold save_phones. split.
  - pose proof (split_pieces_no_comma input) as Hpieces.
    induction Hpieces as [|piece pieces Hpiece _ IH]; simpl; [constructor|].
    destruct (trim piece) as [|c r] eqn:E; simpl; [exact IH|].
    constructor; [|exact IH]. exists (c :: r). rewrite <- E.
    repeat split; [by rewrite E | apply trim_idem | by apply trim_no_comma].
  - intros Hblank.
    rewrite (split_no_comma _ (blank_no_comma _ (trim_empty_blank _ Hblank))).
    simpl. by rewrite Hblank.
Qed.

Lemma save_name_not_blank (v : option jsstring) :
  save_name v <> [] /\ save_name v <> DASH.
Proof.
  destruct v as [s|]; simpl; [|by split].
  destruct s as [|c r]; simpl; [by split|].
  unfold JsString.eqb. case_bool_decide as Hd; simpl; [by split|].
  split; [discriminate | exact Hd].
Qed.

Lemma save_counter_not_nan (c : option float) :
  PrimFloat.is_nan (save_counter c) = false.
Proof.
  destruct c as [x|]; simpl; [|reflexivity].
  unfold JsNumber.truthy. destruct (PrimFloat.is_nan x) eqn:E; simpl; [reflexivity|].
  destruct (PrimFloat.is_zero x); simpl; [reflexivity | exact E].
Qed.

(** X15: whatever the form holds, the saved record is well formed in these
    respects: its name is neither empty nor the dash, each of its five
    counters is a number and never [NaN], its map link is [null] or a text
    that is not empty, and its phone numbers and help categories are lists,
    also when the form has none. *)
Theorem saved_record_well_formed (formatPhoneNumber : jsstring -> jsstring)
    (parseFloat : jsstring -> float) (String_of_number : float -> jsstring)
    (st : State) :
  let values := dataToUpdate formatPhoneNumber parseFloat String_of_number st in
  (exists s, values !! "name"%string = Some (JString s) /\ s <> [] /\ s <> DASH)
  /\ Forall (fun v => exists x, v = Some (JNumber x) /\ PrimFloat.is_nan x = false)
            (stored_counters values)
  /\ (values !! "map_link"%string = Some JNull
      \/ exists s, values !! "map_link"%string = Some (JString s) /\ s <> [])
  /\ (exists l, values !! "phone"%string = Some (JStrings l))
  /\ (exists l, values !! "help_categories"%string = Some (JStrings l)).
Proof.
  intros values. subst values. split; [|split; [|split; [|split]]].
  - exists (save_name (name (formData st))).
    split; [apply EditReportDialogSpec.saved_name_value | apply save_name_not_blank].
  - rewrite EditReportDialogSpec.saved_counter_values.
    apply Forall_fmap, Forall_forall. intros c _. simpl.
    exists (save_counter c). split; [reflexivity | apply save_counter_not_nan].
  - assert (dataToUpdate formatPhoneNumber parseFloat String_of_number st
              !! "map_link"%string = Some (save_map_link (map_link (formData st)))) as ->.
    { unfold dataToUpdate. EditReportDialogSpec.lookup_literal. }
    destruct (map_link (formData st)) as [[|c r]|]; simpl; auto.
    right. by exists (c :: r).
  - eexists. apply EditReportDialogSpec.saved_phone_value.
  - eexists. unfold dataToUpdate. EditReportDialogSpec.lookup_literal.
Qed.

Lemma includes_elem_of (x : jsstring) (l : list jsstring) :
  includes x l = true <-> x ∈ l.
Proof.
  unfold includes. rewrite existsb_exists. split.
  - intros (y & Hin & Heq). apply bool_decide_eq_true in Heq. subst y.
    by apply list_elem_of_In.
  - intros Hin. exists x. split; [by apply list_elem_of_In|].
    by apply bool_decide_eq_true.
Qed.

Lemma toggle_category_elem_of (category other : jsstring) (checked : bool)
    (current : list jsstring) :
  other ∈ toggle_category category checked current <->
  if checked then other ∈ current \/ other = category
  else other ∈ current /\ other <> category.
Proof.
  unfold toggle_category. destruct checked.
  - rewrite elem_of_app, list_elem_of_singleton. reflexivity.
  - rewrite list_elem_of_In, filter_In, <- list_elem_of_In.
    unfold JsString.eqb. rewrite negb_true_iff, bool_decide_eq_false. reflexivity.
Qed.

Lemma category_checked_elem_of (category : jsstring) (r : Report) :
  category_checked category r = true <-> category ∈ default [] (help_categories r).
Proof.
  unfold category_checked. destruct (help_categories r) as [l|]; simpl.
  - apply includes_elem_of.
  - split; [discriminate | by intros ?%elem_of_nil].
Qed.

(** X16: a click on the box of a help category flips that category and no
    other: afterwards the box shows the opposite of before, and the box of
    every other category shows what it showed. *)
Theorem click_category_flips_one (category : jsstring) (r : Report) :
  category_checked category (click_category category r)
  = negb (category_checked category r)
  /\ forall other, other <> category ->
       category_checked other (click_category category r) = category_checked other r.
Proof.
  split.
  - apply Bool.eq_iff_eq_true. rewrite negb_true_iff.
    rewrite category_checked_elem_of. unfold click_category, onCheckedChange. simpl.
    rewrite toggle_category_elem_of.
    destruct (category_checked category r) eqn:E; simpl.
    + split; [by intros [_ ?] | discriminate].
    + split; [reflexivity | auto].
  - intros other Hother. apply Bool.eq_iff_eq_true.
    rewrite !category_checked_elem_of. unfold click_category, onCheckedChange. simpl.
    rewrite toggle_category_elem_of.
    destruct (negb (category_checked category r)).
    + split; [intros [Hin|Heq]; [exact Hin | contradiction] | auto].
    + split; [by intros [Hin _] | auto].
Qed.

(** X17: clicks keep the list of help categories free of duplicates: a
    category is appended only when its box is not checked, which is when the
    list does not hold it, and unchecking removes it. *)
Theorem click_category_no_duplicates (category : jsstring) (r : Report) :
  NoDup (default [] (help_categories r)) ->
  NoDup (default [] (help_categories (click_category category r))).
Proof.
  intros Hnodup. unfold click_category, onCheckedChange. simpl.
  destruct (category_checked category r) eqn:E; simpl.
  - by apply NoDup_ListNoDup, List.NoDup_filter, NoDup_ListNoDup.
  - apply NoDup_app. split; [exact Hnodup|]. split; [|apply NoDup_singleton].
    intros x Hx ->%list_elem_of_singleton.
    apply category_checked_elem_of in Hx. congruence.
Qed.

Lemma click_category_no_duplicates_witness :
  let r := sample_report None None None in
  NoDup (default [] (help_categories r))
  /\ NoDup (default [] (help_categories (click_category (lit "food") r))).
Proof.
  intros r.
  assert (NoDup (default [] (help_categories r))) as Hnodup.
  { simpl. apply NoDup_singleton. }
  split; [exact Hnodup|].
  exact (click_category_no_duplicates (lit "food") r Hnodup).
Defined.

(** Refutes that an effect is in a list that does not hold it. *)
Ltac no_such_effect H :=
  repeat (apply elem_of_cons in H as [H|H]; [discriminate|]);
  apply elem_of_nil in H.

(** X23: a counter typed into its field is saved as the field left it: the
    field never leaves [NaN] or nothing in the form, and the save's own
    default does not change what the field's default produced. *)
Theorem typed_counter_saved_unchanged (parseInt : jsstring -> float) (value : jsstring) :
  exists x,
    counter_onChange parseInt value = Some x
    /\ PrimFloat.is_nan x = false
    /\ save_counter (counter_onChange parseInt value) = x.
Proof.
  unfold counter_onChange. eexists. split; [reflexivity|].
  unfold save_counter.
  destruct (JsNumber.truthy (parseInt value)) eqn:E.
  - rewrite E. split; [|reflexivity].
    unfold JsNumber.truthy in E.
    by destruct (PrimFloat.is_nan (parseInt value)).
  - split; reflexivity.
Qed.

Section save.

Variable formatPhoneNumber : jsstring -> jsstring.
Variable parseFloat : jsstring -> float.
Variable String_of_number : float -> jsstring.

Lemma unsent_column_lookup (st : State) (key : string) :
  key ∉ sent_columns ->
  dataToUpdate formatPhoneNumber parseFloat String_of_number st !! key = None.
Proof.
  unfold sent_columns. intros H.
  repeat (apply not_elem_of_cons in H as [? H]).
  unfold dataToUpdate.
  repeat (rewrite lookup_insert_ne by congruence). apply lookup_empty.
Qed.

Lemma sent_column_lookup (st : State) :
  Forall (fun key =>
            is_Some (dataToUpdate formatPhoneNumber parseFloat String_of_number st !! key))
         sent_columns.
Proof.
  unfold sent_columns, dataToUpdate.
  repeat (constructor; [eexists; EditReportDialogSpec.lookup_literal|]).
  constructor.
Qed.

Lemma kept_columns_unsent : Forall (fun key => key ∉ sent_columns) kept_columns.
Proof.
  unfold kept_columns, sent_columns.
  repeat (constructor;
          [intros H; repeat (apply elem_of_cons in H as [H|H]; [discriminate|]);
           by apply elem_of_nil in H|]).
  constructor.
Qed.

(** X18: a save writes the nineteen columns of the form and nothing else:
    the record sent has exactly those keys, so in every row the columns
    [id], [raw_message], [created_at] and [updated_at] (and any column
    outside the nineteen) keep their values; rows with another id than the
    report the dialog was opened with are left as they are, and no row is
    added or removed. *)
Theorem save_writes_form_columns_only (report : Report) (resp : update_response)
    (st : State) (table : list (gmap string jsval)) :
  let values := dataToUpdate formatPhoneNumber parseFloat String_of_number st in
  let table' :=
    (handleSave formatPhoneNumber parseFloat String_of_number report resp st table).1.2 in
  dom values = list_to_set sent_columns
  /\ Forall (fun key => key ∉ sent_columns) kept_columns
  /\ length table' = length table
  /\ Forall2 (fun r r' : gmap string jsval =>
                (has_id (id report) r = false -> r' = r)
                /\ forall key, key ∉ sent_columns -> r' !! key = r !! key)
             table table'.
Proof.
  intros values table'. split; [|split; [apply kept_columns_unsent|]].
  - apply set_eq. intros key. rewrite elem_of_dom, elem_of_list_to_set. split.
    + intros Hsome. destruct (decide (key ∈ sent_columns)) as [Hin|Hnot]; [exact Hin|].
      subst values. rewrite (unsent_column_lookup st key Hnot) in Hsome.
      by destruct Hsome.
    + intros Hin. pose proof (sent_column_lookup st) as Hall.
      rewrite Forall_forall in Hall. by apply Hall.
  - subst table'. destruct resp as [|err]; simpl.
    + unfold update_rows. split; [apply length_map|].
      apply Forall2_fmap_r, Forall_Forall2_diag, Forall_forall. intros r _.
      unfold compose. cbv beta. destruct (has_id (id report) r); split; try done.
      intros key Hkey. apply lookup_union_r. by apply unsent_column_lookup.
    + split; [reflexivity|]. apply Forall_Forall2_diag, Forall_forall. by intros r _.
Qed.

(** X19: the dialog closes, and its owner is told of a success, exactly when
    the service accepted the update; a refused update leaves the table as it
    was, is reported in an error toast, and keeps the dialog open with the
    form as it was filled in.  Either way the saving flag is off again. *)
Theorem save_closes_dialog_iff_accepted (report : Report) (resp : update_response)
    (st : State) (table : list (gmap string jsval)) :
  let result :=
    handleSave formatPhoneNumber parseFloat String_of_number report resp st table in
  isSaving result.1.1 = false
  /\ formData result.1.1 = formData st
  /\ phoneInput result.1.1 = phoneInput st
  /\ (OnOpenChange false ∈ result.2 <-> resp = UpdateOk)
  /\ (OnSuccess ∈ result.2 <-> resp = UpdateOk)
  /\ (forall open, OnOpenChange open ∈ result.2 -> open = false)
  /\ (forall err, resp = UpdateError err ->
        result.1.2 = table
        /\ ToastError (message_or InputPage.MSG_TRY_AGAIN err) ∈ result.2).
Proof.
  intros result. subst result.
  do 3 (split; [by destruct resp|]).
  destruct resp as [|err]; simpl.
  - split; [split; [done|]; intros _;
            do 2 apply list_elem_of_further; apply list_elem_of_here|].
    split; [split; [done|]; intros _;
            apply list_elem_of_further, list_elem_of_here|].
    split; [|discriminate].
    intros open Hin.
    do 2 (apply elem_of_cons in Hin as [Hin|Hin]; [discriminate|]).
    apply elem_of_cons in Hin as [Hin|Hin]; [by injection Hin|].
    by apply elem_of_nil in Hin.
  - split; [split; [|discriminate]; intros Hin; by no_such_effect Hin|].
    split; [split; [|discriminate]; intros Hin; by no_such_effect Hin|].
    split; [intros open Hin; by no_such_effect Hin|].
    intros err' [= <-]. split; [reflexivity|].
    apply list_elem_of_further, list_elem_of_here.
Qed.

End save.

End EditReportDialogMore.
